(** * Converters between Go reflect values and protobuf reflection values

    A shallow embedding of [internal/impl/convert.go] of the vendored
    [google.golang.org/protobuf] module: the converter factory
    ([NewConverter], [newSingularConverter]) and the eleven singular kind
    converters, over a model of the parts of Go's [reflect] package and of
    the [protoreflect] package that the file calls.

    Conventions:
    - a Go function that may panic returns a [result];
    - integers are [Z] with the wrap-around of Go's conversions written out;
    - floating-point values are [float]: the numbers of [spec_float],
      binary32 with precision 24 and binary64 with precision 53, and the
      NaNs with their sign, quiet bit and payload;
    - Go strings are [string], byte slices are [option (list byte)] with
      [None] for the nil slice;
    - the store of allocated variables is a [gmap] from locations to
      payloads. *)

From Stdlib Require Import ZArith Lia Bool List.
From Stdlib Require Import Strings.String Strings.Byte.
From Stdlib Require Import Floats.SpecFloat.
From stdpp Require Import base decidable option gmap.

Local Open Scope Z_scope.

Infix "+:+" := String.append (at level 60, right associativity).

(** ** Outcomes of Go calls *)

(** The value a Go [panic] carries. *)
Inductive panic_value :=
| StringPanic (msg : string)                (* panic(fmt.Sprintf(...)) *)
| ValueError (method kind : string)         (* &reflect.ValueError{...} *)
| RuntimeError (msg : string).              (* runtime.Error *)

(** A call returns, panics, or does something that lies outside the modelled
    fragment of the libraries ([Unmodelled]: some conversions of
    [reflect.Value.Convert]; nothing is proved about such a call). *)
Inductive result (A : Type) :=
| Ok (a : A)
| Panic (p : panic_value)
| Unmodelled.
Arguments Ok {A} a.
Arguments Panic {A} p.
Arguments Unmodelled {A}.

Definition bind {A B} (r : result A) (k : A -> result B) : result B :=
  match r with
  | Ok a => k a
  | Panic p => Panic p
  | Unmodelled => Unmodelled
  end.

Notation "x <- r ;; k" := (bind r (fun x => k))
  (at level 100, r at next level, right associativity).

Definition panics {A} (r : result A) : bool :=
  match r with Panic _ => true | _ => false end.

(** What a [switch] statement did: one of its cases executed a [return], or
    control reached the statement after the switch. *)
Inductive flow (A : Type) :=
| Return (a : A)
| Fallthrough.
Arguments Return {A} a.
Arguments Fallthrough {A}.

(** ** Fixed-width integers *)

(** [uintN(z)]: the low [w] bits. *)
Definition wrap_unsigned (w : Z) (z : Z) : Z := z mod 2 ^ w.

(** [intN(z)]: the low [w] bits, read in two's complement. *)
Definition wrap_signed (w : Z) (z : Z) : Z :=
  (z + 2 ^ (w - 1)) mod 2 ^ w - 2 ^ (w - 1).

Definition in_signed (w z : Z) : bool :=
  (- 2 ^ (w - 1) <=? z) && (z <? 2 ^ (w - 1)).

Definition in_unsigned (w z : Z) : bool :=
  (0 <=? z) && (z <? 2 ^ w).

(** ** Floating point *)

(** A Go floating-point value: a number as [spec_float] has them (a zero,
    an infinity or a finite value), or a NaN with its sign bit, its quiet
    bit (the first bit of the fraction field) and its payload (the rest of
    the fraction field: 22 bits in a float32, 51 bits in a float64). A NaN
    whose quiet bit is clear is a signalling NaN; its payload is not zero,
    since a fraction field of zeros encodes an infinity. The [S754_nan] of
    [spec_float], which has no bits, is not used: [is_float32] and
    [is_float64] reject it. *)
Inductive float :=
| Fnum (x : spec_float)
| Fnan (sign quiet : bool) (payload : Z).

Coercion Fnum : spec_float >-> float.

Definition is_nan_payload (bits : Z) (quiet : bool) (payload : Z) : bool :=
  (0 <=? payload) && (payload <? 2 ^ bits) && (quiet || negb (payload =? 0)).

Definition is_float32 (x : float) : bool :=
  match x with
  | Fnum S754_nan => false
  | Fnum y => valid_binary 24 128 y
  | Fnan _ q p => is_nan_payload 22 q p
  end.

Definition is_float64 (x : float) : bool :=
  match x with
  | Fnum S754_nan => false
  | Fnum y => valid_binary 53 1024 y
  | Fnan _ q p => is_nan_payload 51 q p
  end.

Definition signalling (x : float) : bool :=
  match x with Fnan _ false _ => true | _ => false end.

(** The quiet NaN of a NaN: the same sign and payload with the quiet bit
    set. A number is left as it is. *)
Definition quiet (x : float) : float :=
  match x with
  | Fnan s _ p => Fnan s true p
  | Fnum _ => x
  end.

(** A number rounded to binary64 and to binary32: to nearest, ties to
    even. *)
Definition round64 (x : spec_float) : spec_float :=
  match x with
  | S754_finite s m e => binary_round 53 1024 s m e
  | _ => x
  end.

Definition round32 (x : spec_float) : spec_float :=
  match x with
  | S754_finite s m e => binary_round 24 128 s m e
  | _ => x
  end.

(** [float64(x)] for a float32 [x], the conversion of IEEE 754 as the
    processors have it (CVTSS2SD, FCVT): exact on a number; a NaN keeps its
    sign, has its quiet bit set, and its fraction field is extended by 29
    zero bits. *)
Definition float64_of_float32 (x : float) : float :=
  match x with
  | Fnum y => Fnum (round64 y)
  | Fnan s _ p => Fnan s true (Z.shiftl p 29)
  end.

(** [float32(x)] for a float64 [x] (CVTSD2SS, FCVT): a number is rounded; a
    NaN keeps its sign, has its quiet bit set, and loses the last 29 bits
    of its fraction field. *)
Definition float32_of_float64 (x : float) : float :=
  match x with
  | Fnum y => Fnum (round32 y)
  | Fnan s _ p => Fnan s true (Z.shiftr p 29)
  end.

(** ** The [reflect] package

    The fragment of Go's [reflect] that [convert.go] calls, over the types
    built from the predeclared basic types, defined (named) types, slices,
    pointers and structs. *)
Module reflect.

Inductive Kind :=
| Invalid | Bool
| Int | Int8 | Int16 | Int32 | Int64
| Uint | Uint8 | Uint16 | Uint32 | Uint64 | Uintptr
| Float32 | Float64 | Complex64 | Complex128
| Array | Chan | Func | Interface | Map | Ptr | Slice | String | Struct
| UnsafePointer.

#[global] Instance Kind_eq_dec : EqDecision Kind.
Proof. solve_decision. Defined.

Definition Kind_String (k : Kind) : string :=
  match k with
  | Invalid => "invalid" | Bool => "bool"
  | Int => "int" | Int8 => "int8" | Int16 => "int16" | Int32 => "int32"
  | Int64 => "int64"
  | Uint => "uint" | Uint8 => "uint8" | Uint16 => "uint16"
  | Uint32 => "uint32" | Uint64 => "uint64" | Uintptr => "uintptr"
  | Float32 => "float32" | Float64 => "float64"
  | Complex64 => "complex64" | Complex128 => "complex128"
  | Array => "array" | Chan => "chan" | Func => "func"
  | Interface => "interface" | Map => "map" | Ptr => "ptr"
  | Slice => "slice" | String => "string" | Struct => "struct"
  | UnsafePointer => "unsafe.Pointer"
  end.

(** The predeclared types, named by their kind. *)
Inductive basic :=
| Tbool
| Tint | Tint8 | Tint16 | Tint32 | Tint64
| Tuint | Tuint8 | Tuint16 | Tuint32 | Tuint64 | Tuintptr
| Tfloat32 | Tfloat64 | Tcomplex64 | Tcomplex128
| Tstring | TunsafePointer.

Definition basic_Kind (b : basic) : Kind :=
  match b with
  | Tbool => Bool
  | Tint => Int | Tint8 => Int8 | Tint16 => Int16 | Tint32 => Int32
  | Tint64 => Int64
  | Tuint => Uint | Tuint8 => Uint8 | Tuint16 => Uint16 | Tuint32 => Uint32
  | Tuint64 => Uint64 | Tuintptr => Uintptr
  | Tfloat32 => Float32 | Tfloat64 => Float64
  | Tcomplex64 => Complex64 | Tcomplex128 => Complex128
  | Tstring => String | TunsafePointer => UnsafePointer
  end.

(** [reflect.Type]. A defined type [type name under] of package [pkg] is
    [Defined pkg name under]; two types are identical exactly when their
    descriptions are equal. *)
Inductive rtype :=
| Predeclared (b : basic)
| Defined (pkg name : string) (under : rtype)
| SliceOf (elem : rtype)
| PtrTo (elem : rtype)
| StructOf (fs : fields)
with fields :=
| fnil
| fcons (name : string) (t : rtype) (rest : fields).

#[global] Instance basic_eq_dec : EqDecision basic.
Proof. solve_decision. Defined.

Fixpoint rtype_eq_dec_mut (a b : rtype) {struct a} : {a = b} + {a <> b}
with fields_eq_dec_mut (a b : fields) {struct a} : {a = b} + {a <> b}.
Proof.
  - decide equality; try apply string_dec. apply basic_eq_dec.
  - decide equality. apply string_dec.
Defined.

#[global] Instance rtype_eq_dec : EqDecision rtype := rtype_eq_dec_mut.

(** [t.Kind()] *)
Fixpoint Type_Kind (t : rtype) : Kind :=
  match t with
  | Predeclared b => basic_Kind b
  | Defined _ _ u => Type_Kind u
  | SliceOf _ => Slice
  | PtrTo _ => Ptr
  | StructOf _ => Struct
  end.

(** The underlying type. *)
Fixpoint underlying (t : rtype) : rtype :=
  match t with
  | Defined _ _ u => underlying u
  | _ => t
  end.

(** [t.String()] *)
Fixpoint Type_String (t : rtype) : string :=
  match t with
  | Predeclared b => Kind_String (basic_Kind b)
  | Defined pkg name _ =>
      if String.eqb pkg "" then name else pkg +:+ "." +:+ name
  | SliceOf e => "[]" +:+ Type_String e
  | PtrTo e => "*" +:+ Type_String e
  | StructOf fnil => "struct {}"
  | StructOf (fcons n t r) =>
      "struct { " +:+ n +:+ " " +:+ Type_String t +:+ fields_String r +:+ " }"
  end
with fields_String (fs : fields) : string :=
  match fs with
  | fnil => ""
  | fcons n t r => "; " +:+ n +:+ " " +:+ Type_String t +:+ fields_String r
  end.

(** [t.PkgPath()] *)
Definition Type_PkgPath (t : rtype) : string :=
  match t with
  | Defined pkg _ _ => pkg
  | _ => ""
  end.

(** [t.Elem()]: panics unless the kind is Array, Chan, Map, Ptr or Slice. *)
Definition Type_Elem (t : rtype) : result rtype :=
  match underlying t with
  | SliceOf e | PtrTo e => Ok e
  | _ => Panic (StringPanic ("reflect: Elem of invalid type " +:+ Type_String t))
  end.

(** Locations of allocated variables. *)
Abbreviation loc := positive.

(** The contents of a variable, by the kind of its type: all integer kinds
    hold a [PInt], both float kinds a [PFloat]; a slice is nil ([None]) or
    has elements (only the elements of byte slices are represented). *)
#[local] Unset Elimination Schemes.
Inductive payload :=
| PBool (b : bool)
| PInt (n : Z)
| PFloat (x : float)
| PComplex (re im : float)
| PString (s : string)
| PSlice (bs : option (list byte))
| PPtr (p : option loc)
| PStruct (fs : list payload).
#[local] Set Elimination Schemes.

(** The store of allocated variables. *)
Abbreviation heap := (gmap positive payload).

Definition basic_zero (b : basic) : payload :=
  match b with
  | Tbool => PBool false
  | Tint | Tint8 | Tint16 | Tint32 | Tint64
  | Tuint | Tuint8 | Tuint16 | Tuint32 | Tuint64 | Tuintptr => PInt 0
  | Tfloat32 | Tfloat64 => PFloat (S754_zero false)
  | Tcomplex64 | Tcomplex128 => PComplex (S754_zero false) (S754_zero false)
  | Tstring => PString ""
  | TunsafePointer => PPtr None
  end.

(** The zero value of a type. *)
Fixpoint zero (t : rtype) : payload :=
  match t with
  | Predeclared b => basic_zero b
  | Defined _ _ u => zero u
  | SliceOf _ => PSlice None
  | PtrTo _ => PPtr None
  | StructOf fs => PStruct (zero_fields fs)
  end
with zero_fields (fs : fields) : list payload :=
  match fs with
  | fnil => []
  | fcons _ t r => zero t :: zero_fields r
  end.

(** [reflect.Value]: [None] is the zero Value (for which [IsValid] is
    false); otherwise a type, the contents, and the location of the variable
    the value refers to when it is addressable. *)
Record rvalue := { typ : rtype; data : payload; addr : option loc }.
Abbreviation Value := (option rvalue).

(** [reflect.ValueOf(x)] for [x] of static type [t] with contents [p]. *)
Definition ValueOf (t : rtype) (p : payload) : Value :=
  Some {| typ := t; data := p; addr := None |}.

(** [reflect.Zero(t)] *)
Definition Zero (t : rtype) : Value := ValueOf t (zero t).

(** [reflect.New(t)]: allocates a zero [t] and returns the pointer to it. *)
Definition New (t : rtype) (h : heap) : Value * heap :=
  let l := fresh (dom h) in
  (ValueOf (PtrTo t) (PPtr (Some l)), <[l := zero t]> h).

Definition Value_IsValid (v : Value) : bool :=
  match v with Some _ => true | None => false end.

Definition Value_Kind (v : Value) : Kind :=
  match v with Some r => Type_Kind (typ r) | None => Invalid end.

(** [v.Type()] *)
Definition Value_Type (v : Value) : result rtype :=
  match v with
  | Some r => Ok (typ r)
  | None => Panic (ValueError "reflect.Value.Type" (Kind_String Invalid))
  end.

Definition value_error {A} (method : string) (v : Value) : result A :=
  Panic (ValueError method (Kind_String (Value_Kind v))).

Definition is_int_kind (k : Kind) : bool :=
  match k with Int | Int8 | Int16 | Int32 | Int64 => true | _ => false end.

Definition is_uint_kind (k : Kind) : bool :=
  match k with
  | Uint | Uint8 | Uint16 | Uint32 | Uint64 | Uintptr => true
  | _ => false
  end.

Definition is_float_kind (k : Kind) : bool :=
  match k with Float32 | Float64 => true | _ => false end.

(** Size in bits of the integer kinds ([int], [uint] and [uintptr] are 64
    bits wide). *)
Definition kind_bits (k : Kind) : Z :=
  match k with
  | Int8 | Uint8 => 8
  | Int16 | Uint16 => 16
  | Int32 | Uint32 => 32
  | _ => 64
  end.

Definition payload_bool (p : payload) : bool :=
  match p with PBool b => b | _ => false end.
Definition payload_int (p : payload) : Z :=
  match p with PInt n => n | _ => 0 end.
Definition payload_float (p : payload) : float :=
  match p with PFloat x => x | _ => S754_zero false end.
Definition payload_string (p : payload) : string :=
  match p with PString s => s | _ => "" end.
Definition payload_slice (p : payload) : option (list byte) :=
  match p with PSlice bs => bs | _ => None end.
Definition payload_ptr (p : payload) : option loc :=
  match p with PPtr l => l | _ => None end.

(** [v.Bool()] *)
Definition Value_Bool (v : Value) : result bool :=
  match v with
  | Some r =>
      match Type_Kind (typ r) with
      | Bool => Ok (payload_bool (data r))
      | _ => value_error "reflect.Value.Bool" v
      end
  | None => value_error "reflect.Value.Bool" v
  end.

(** [v.Int()] *)
Definition Value_Int (v : Value) : result Z :=
  match v with
  | Some r =>
      if is_int_kind (Type_Kind (typ r)) then Ok (payload_int (data r))
      else value_error "reflect.Value.Int" v
  | None => value_error "reflect.Value.Int" v
  end.

(** [v.Uint()] *)
Definition Value_Uint (v : Value) : result Z :=
  match v with
  | Some r =>
      if is_uint_kind (Type_Kind (typ r)) then Ok (payload_int (data r))
      else value_error "reflect.Value.Uint" v
  | None => value_error "reflect.Value.Uint" v
  end.

(** [v.Float()]: a float64, widened from a float32 variable. *)
Definition Value_Float (v : Value) : result float :=
  match v with
  | Some r =>
      match Type_Kind (typ r) with
      | Float32 => Ok (float64_of_float32 (payload_float (data r)))
      | Float64 => Ok (payload_float (data r))
      | _ => value_error "reflect.Value.Float" v
      end
  | None => value_error "reflect.Value.Float" v
  end.

(** [v.String()]: never panics. *)
Definition Value_String (v : Value) : string :=
  match v with
  | Some r =>
      match Type_Kind (typ r) with
      | String => payload_string (data r)
      | _ => "<" +:+ Type_String (typ r) +:+ " Value>"
      end
  | None => "<invalid Value>"
  end.

Definition slice_len (bs : option (list byte)) : Z :=
  match bs with Some l => Z.of_nat (length l) | None => 0 end.

(** [v.Len()] *)
Definition Value_Len (v : Value) : result Z :=
  match v with
  | Some r =>
      match Type_Kind (typ r) with
      | String => Ok (Z.of_nat (String.length (payload_string (data r))))
      | Slice => Ok (slice_len (payload_slice (data r)))
      | _ => value_error "reflect.Value.Len" v
      end
  | None => value_error "reflect.Value.Len" v
  end.

(** [v.Bytes()] *)
Definition Value_Bytes (v : Value) : result (option (list byte)) :=
  match v with
  | Some r =>
      match underlying (typ r) with
      | SliceOf e =>
          if bool_decide (Type_Kind e = Uint8) then Ok (payload_slice (data r))
          else Panic (StringPanic "reflect.Value.Bytes of non-byte slice")
      | _ => value_error "reflect.Value.Bytes" v
      end
  | None => value_error "reflect.Value.Bytes" v
  end.

Definition Value_CanAddr (v : Value) : bool :=
  match v with
  | Some r => match addr r with Some _ => true | None => false end
  | None => false
  end.

(** [v.Addr()] *)
Definition Value_Addr (v : Value) : result Value :=
  match v with
  | Some r =>
      match addr r with
      | Some l => Ok (ValueOf (PtrTo (typ r)) (PPtr (Some l)))
      | None => Panic (StringPanic "reflect.Value.Addr of unaddressable value")
      end
  | None => Panic (StringPanic "reflect.Value.Addr of unaddressable value")
  end.

(** [v.Interface()]: the value as an [interface{}], a copy that is no longer
    addressable; [reflect.ValueOf] of that interface value gives it back. *)
Definition Value_Interface (v : Value) : result Value :=
  match v with
  | Some r => Ok (ValueOf (typ r) (data r))
  | None => value_error "reflect.Value.Interface" v
  end.

(** [v.IsNil()] *)
Definition Value_IsNil (v : Value) : result bool :=
  match v with
  | Some r =>
      match Type_Kind (typ r), data r with
      | (Ptr | UnsafePointer), PPtr None => Ok true
      | (Ptr | UnsafePointer), _ => Ok false
      | Slice, PSlice None => Ok true
      | Slice, _ => Ok false
      | _, _ => value_error "reflect.Value.IsNil" v
      end
  | None => value_error "reflect.Value.IsNil" v
  end.

(** [v.Elem()] of a pointer: the variable pointed to, addressable; the zero
    Value for a nil pointer. *)
Definition Value_Elem (h : heap) (v : Value) : result Value :=
  match v with
  | Some r =>
      match underlying (typ r) with
      | PtrTo e =>
          match payload_ptr (data r) with
          | None => Ok None
          | Some l =>
              match h !! l with
              | Some p => Ok (Some {| typ := e; data := p; addr := Some l |})
              | None =>
                  Panic (RuntimeError "invalid memory address or nil pointer dereference")
              end
          end
      | _ => value_error "reflect.Value.Elem" v
      end
  | None => value_error "reflect.Value.Elem" v
  end.

(** The conversion operators of [reflect.Value.Convert]. *)
Inductive cvt :=
| cvtInt | cvtUint | cvtFloat
| cvtIntFloat | cvtUintFloat | cvtFloatInt | cvtFloatUint
| cvtIntString | cvtUintString | cvtComplex
| cvtStringBytes | cvtStringRunes | cvtBytesString | cvtRunesString
| cvtDirect.

Definition is_complex_kind (k : Kind) : bool :=
  match k with Complex64 | Complex128 => true | _ => false end.

Definition elem_of (t : rtype) : option rtype :=
  match underlying t with
  | SliceOf e | PtrTo e => Some e
  | _ => None
  end.

(** [convertOp(dst, src)]: first the conversions chosen by kind, then the
    direct conversion between types with identical underlying types and
    between unnamed pointer types with identical underlying base types. *)
Definition convertOp (dst src : rtype) : option cvt :=
  let dk := Type_Kind dst in
  let sk := Type_Kind src in
  let by_kind :=
    if is_int_kind sk then
      if is_int_kind dk || is_uint_kind dk then Some cvtInt
      else if is_float_kind dk then Some cvtIntFloat
      else if bool_decide (dk = String) then Some cvtIntString
      else None
    else if is_uint_kind sk then
      if is_int_kind dk || is_uint_kind dk then Some cvtUint
      else if is_float_kind dk then Some cvtUintFloat
      else if bool_decide (dk = String) then Some cvtUintString
      else None
    else if is_float_kind sk then
      if is_int_kind dk then Some cvtFloatInt
      else if is_uint_kind dk then Some cvtFloatUint
      else if is_float_kind dk then Some cvtFloat
      else None
    else if is_complex_kind sk then
      if is_complex_kind dk then Some cvtComplex else None
    else if bool_decide (sk = String) then
      match elem_of dst with
      | Some e =>
          if bool_decide (dk = Slice) && String.eqb (Type_PkgPath e) "" then
            match Type_Kind e with
            | Uint8 => Some cvtStringBytes
            | Int32 => Some cvtStringRunes
            | _ => None
            end
          else None
      | None => None
      end
    else if bool_decide (sk = Slice) then
      match elem_of src with
      | Some e =>
          if bool_decide (dk = String) && String.eqb (Type_PkgPath e) "" then
            match Type_Kind e with
            | Uint8 => Some cvtBytesString
            | Int32 => Some cvtRunesString
            | _ => None
            end
          else None
      | None => None
      end
    else None in
  match by_kind with
  | Some op => Some op
  | None =>
      if bool_decide (underlying dst = underlying src) then Some cvtDirect
      else
        match dst, src with
        | PtrTo d, PtrTo s =>
            if bool_decide (underlying d = underlying s) then Some cvtDirect
            else None
        | _, _ => None
        end
  end.

(** [makeInt(bits, t)]: the low bits that fit the kind of [t]. *)
Definition makeInt (n : Z) (t : rtype) : payload :=
  let k := Type_Kind t in
  if is_int_kind k then PInt (wrap_signed (kind_bits k) n)
  else PInt (wrap_unsigned (kind_bits k) n).

(** [makeFloat(v, t)] for a float64 [v]. *)
Definition makeFloat (x : float) (t : rtype) : payload :=
  match Type_Kind t with
  | Float32 => PFloat (float32_of_float64 x)
  | _ => PFloat x
  end.

Definition float_of_payload (k : Kind) (p : payload) : float :=
  match k with
  | Float32 => float64_of_float32 (payload_float p)
  | _ => payload_float p
  end.

(** [v.Convert(t)] *)
Definition Value_Convert (v : Value) (t : rtype) : result Value :=
  match v with
  | None => value_error "reflect.Value.Convert" v
  | Some r =>
      match convertOp t (typ r) with
      | None =>
          Panic (StringPanic
            ("reflect.Value.Convert: value of type " +:+ Type_String (typ r)
             +:+ " cannot be converted to type " +:+ Type_String t))
      | Some (cvtInt | cvtUint) =>
          Ok (ValueOf t (makeInt (payload_int (data r)) t))
      | Some cvtFloat =>
          Ok (ValueOf t
                (makeFloat (float_of_payload (Type_Kind (typ r)) (data r)) t))
      | Some (cvtIntFloat | cvtUintFloat) =>
          Ok (ValueOf t
                (makeFloat
                   (binary_normalize 53 1024 (payload_int (data r)) 0 false) t))
      | Some cvtStringBytes =>
          Ok (ValueOf t
                (PSlice (Some (list_byte_of_string (payload_string (data r))))))
      | Some cvtBytesString =>
          Ok (ValueOf t
                (PString
                   (string_of_list_byte
                      (default [] (payload_slice (data r))))))
      | Some cvtDirect => Ok (ValueOf t (data r))
      | Some (cvtFloatInt | cvtFloatUint | cvtIntString | cvtUintString
             | cvtComplex | cvtStringRunes | cvtRunesString) => Unmodelled
      end
  end.

End reflect.

(** ** The [protoreflect] package *)
Module protoreflect.

Inductive Kind :=
| BoolKind | EnumKind
| Int32Kind | Sint32Kind | Uint32Kind
| Int64Kind | Sint64Kind | Uint64Kind
| Sfixed32Kind | Fixed32Kind | FloatKind
| Sfixed64Kind | Fixed64Kind | DoubleKind
| StringKind | BytesKind | MessageKind | GroupKind.

Inductive Cardinality := Optional | Required | Repeated.

#[global] Instance Cardinality_eq_dec : EqDecision Cardinality.
Proof. solve_decision. Defined.

(** Modelled from the spec: [protoreflect.Message], whose implementations
    are not in this file, is a handle into the message-reflection system.
    The converters use two of its capabilities: the optional "unwrap to
    native" capability ([protoUnwrap], the [unwrapper] interface of this
    file) and the native-form accessor ([Interface]); both give an
    [interface{}], represented by the [reflect.Value] that
    [reflect.ValueOf] makes of it ([None] for a nil interface). [legacy]
    records that the handle was made by the legacy wrap adapter. *)
Record Message := {
  protoUnwrap : option reflect.Value;
  Interface : reflect.Value;
  legacy : bool
}.

(** Modelled from the spec: the abstract protocol value
    ([protoreflect.Value], declared outside this file) is a tagged union
    holding exactly one of boolean, int32, int64, uint32, uint64, float32,
    float64, string, byte sequence, enum number or message handle; the
    constructors carry the names of the package's constructor functions.
    [NoValue] is the zero [Value{}], which holds nothing. *)
Inductive Value :=
| NoValue
| ValueOfBool (b : bool)
| ValueOfInt32 (n : Z)
| ValueOfInt64 (n : Z)
| ValueOfUint32 (n : Z)
| ValueOfUint64 (n : Z)
| ValueOfFloat32 (x : float)
| ValueOfFloat64 (x : float)
| ValueOfString (s : string)
| ValueOfBytes (b : option (list byte))
| ValueOfEnum (n : Z)
| ValueOfMessage (m : Message).

Definition typeName (v : Value) : string :=
  match v with
  | NoValue => "nil"
  | ValueOfBool _ => "bool"
  | ValueOfInt32 _ => "int32"
  | ValueOfInt64 _ => "int64"
  | ValueOfUint32 _ => "uint32"
  | ValueOfUint64 _ => "uint64"
  | ValueOfFloat32 _ => "float32"
  | ValueOfFloat64 _ => "float64"
  | ValueOfString _ => "string"
  | ValueOfBytes _ => "bytes"
  | ValueOfEnum _ => "enum"
  | ValueOfMessage _ => "message"
  end.

Definition panicMessage {A} (v : Value) (what : string) : result A :=
  Panic (StringPanic
    ("type mismatch: cannot convert " +:+ typeName v +:+ " to " +:+ what)).

(** Modelled from the spec: the typed accessors of the abstract value fail
    fatally on a value that holds another type (the operation-time type
    mismatch); the source notes that [Value.String] alone never panics. *)
Definition Value_Bool (v : Value) : result bool :=
  match v with
  | ValueOfBool b => Ok b
  | _ => panicMessage v "bool"
  end.

Definition Value_Int (v : Value) : result Z :=
  match v with
  | ValueOfInt32 n | ValueOfInt64 n => Ok n
  | _ => panicMessage v "int"
  end.

Definition Value_Uint (v : Value) : result Z :=
  match v with
  | ValueOfUint32 n | ValueOfUint64 n => Ok n
  | _ => panicMessage v "uint"
  end.

Definition Value_Float (v : Value) : result float :=
  match v with
  | ValueOfFloat32 x => Ok (float64_of_float32 x)
  | ValueOfFloat64 x => Ok x
  | _ => panicMessage v "float"
  end.

Definition Value_Bytes (v : Value) : result (option (list byte)) :=
  match v with
  | ValueOfBytes b => Ok b
  | _ => panicMessage v "bytes"
  end.

Definition Value_Enum (v : Value) : result Z :=
  match v with
  | ValueOfEnum n => Ok n
  | _ => panicMessage v "enum"
  end.

Definition Value_Message (v : Value) : result Message :=
  match v with
  | ValueOfMessage m => Ok m
  | _ => panicMessage v "message"
  end.

(** The dynamic type of [v.Interface()]. *)
Inductive dynamic :=
| Dnil | Dbool | Dint32 | Dint64 | Duint32 | Duint64 | Dfloat32 | Dfloat64
| Dstring | Dbytes | DEnumNumber | DMessage.

#[global] Instance dynamic_eq_dec : EqDecision dynamic.
Proof. solve_decision. Defined.

Definition Interface_type (v : Value) : dynamic :=
  match v with
  | NoValue => Dnil
  | ValueOfBool _ => Dbool
  | ValueOfInt32 _ => Dint32
  | ValueOfInt64 _ => Dint64
  | ValueOfUint32 _ => Duint32
  | ValueOfUint64 _ => Duint64
  | ValueOfFloat32 _ => Dfloat32
  | ValueOfFloat64 _ => Dfloat64
  | ValueOfString _ => Dstring
  | ValueOfBytes _ => Dbytes
  | ValueOfEnum _ => DEnumNumber
  | ValueOfMessage _ => DMessage
  end.

(** [v.Interface().(string)], which panics when the assertion fails. *)
Definition Interface_string (v : Value) : result string :=
  match v with
  | ValueOfString s => Ok s
  | _ =>
      Panic (RuntimeError
        ("interface conversion: interface {} is " +:+ typeName v
         +:+ ", not string"))
  end.

(** Modelled from the spec: the field descriptor, owned by the schema
    system, gives the field's full name, kind, cardinality, whether it is a
    list or a map field, its declared default, and the numbers of the
    values of its enum in declaration order ([fd.Enum().Values()]; [None]
    when [fd.Enum()] is nil). *)
Record FieldDescriptor := {
  FullName : string;
  FieldKind : Kind;
  FieldCardinality : Cardinality;
  IsList : bool;
  IsMap : bool;
  Default : Value;
  EnumValues : option (list Z)
}.

End protoreflect.

(** [protoreflect.EnumNumber] is a defined [int32] type. *)
Definition EnumNumber : reflect.rtype :=
  reflect.Defined "protoreflect" "EnumNumber" (reflect.Predeclared reflect.Tint32).

(** ** [convert.go] *)

Import reflect(rtype, Predeclared, Defined, SliceOf, PtrTo, StructOf).
Import protoreflect(
  ValueOfBool, ValueOfInt32, ValueOfInt64, ValueOfUint32, ValueOfUint64,
  ValueOfFloat32, ValueOfFloat64, ValueOfString, ValueOfBytes, ValueOfEnum,
  ValueOfMessage, FieldDescriptor).

Definition boolType := Predeclared reflect.Tbool.
Definition int32Type := Predeclared reflect.Tint32.
Definition int64Type := Predeclared reflect.Tint64.
Definition uint32Type := Predeclared reflect.Tuint32.
Definition uint64Type := Predeclared reflect.Tuint64.
Definition float32Type := Predeclared reflect.Tfloat32.
Definition float64Type := Predeclared reflect.Tfloat64.
Definition stringType := Predeclared reflect.Tstring.
Definition bytesType := SliceOf (Predeclared reflect.Tuint8).
Definition byteType := Predeclared reflect.Tuint8.

Definition boolZero := ValueOfBool false.
Definition int32Zero := ValueOfInt32 0.
Definition int64Zero := ValueOfInt64 0.
Definition uint32Zero := ValueOfUint32 0.
Definition uint64Zero := ValueOfUint64 0.
Definition float32Zero := ValueOfFloat32 (S754_zero false).
Definition float64Zero := ValueOfFloat64 (S754_zero false).
Definition stringZero := ValueOfString "".
Definition bytesZero := ValueOfBytes None.

(** The eleven implementations of the [Converter] interface in this file,
    each with the fields of its struct. *)
Inductive Converter :=
| boolConverter (goType : rtype) (def : protoreflect.Value)
| int32Converter (goType : rtype) (def : protoreflect.Value)
| int64Converter (goType : rtype) (def : protoreflect.Value)
| uint32Converter (goType : rtype) (def : protoreflect.Value)
| uint64Converter (goType : rtype) (def : protoreflect.Value)
| float32Converter (goType : rtype) (def : protoreflect.Value)
| float64Converter (goType : rtype) (def : protoreflect.Value)
| stringConverter (goType : rtype) (def : protoreflect.Value)
| bytesConverter (goType : rtype) (def : protoreflect.Value)
| enumConverter (goType : rtype) (def : protoreflect.Value)
| messageConverter (goType : rtype).

Definition goType (c : Converter) : rtype :=
  match c with
  | boolConverter t _ | int32Converter t _ | int64Converter t _
  | uint32Converter t _ | uint64Converter t _
  | float32Converter t _ | float64Converter t _
  | stringConverter t _ | bytesConverter t _ | enumConverter t _
  | messageConverter t => t
  end.

(** [fmt.Sprintf("invalid Go type %v for field %v", t, fd.FullName())] *)
Definition invalid_Go_type (t : rtype) (fd : FieldDescriptor) : string :=
  "invalid Go type " +:+ reflect.Type_String t +:+ " for field "
  +:+ protoreflect.FullName fd.

(** [fmt.Sprintf("invalid type: got %v, want %v", got, want)] *)
Definition invalid_type (got want : rtype) : string :=
  "invalid type: got " +:+ reflect.Type_String got +:+ ", want "
  +:+ reflect.Type_String want.

(** [if cond { return body }] where evaluating [cond] may panic. *)
Definition guard {A} (cond : result bool) (body : result A) : flow (result A) :=
  match cond with
  | Ok true => Return body
  | Ok false => Fallthrough
  | Panic p => Return (Panic p)
  | Unmodelled => Return Unmodelled
  end.

Definition defVal (fd : FieldDescriptor) (zero : protoreflect.Value)
  : protoreflect.Value :=
  if bool_decide (protoreflect.FieldCardinality fd = protoreflect.Repeated)
  then zero (* Default isn't defined for repeated fields. *)
  else protoreflect.Default fd.

(** [t.Kind() == reflect.String ||
     (t.Kind() == reflect.Slice && t.Elem() == byteType)] *)
Definition text_or_bytes (t : rtype) : result bool :=
  if bool_decide (reflect.Type_Kind t = reflect.String) then Ok true
  else if bool_decide (reflect.Type_Kind t = reflect.Slice) then
    e <- reflect.Type_Elem t;; Ok (bool_decide (e = byteType))
  else Ok false.

(** [fd.Enum().Values().Get(0)] panics when the field has no enum or the
    enum no value. *)
Definition newEnumConverter (goType : rtype) (fd : FieldDescriptor)
  : result Converter :=
  def <-
    (if bool_decide (protoreflect.FieldCardinality fd = protoreflect.Repeated)
     then
       match protoreflect.EnumValues fd with
       | Some (n :: _) => Ok (ValueOfEnum n)
       | Some [] =>
           Panic (RuntimeError "index out of range [0] with length 0")
       | None =>
           Panic (RuntimeError
                    "invalid memory address or nil pointer dereference")
       end
     else Ok (protoreflect.Default fd));;
  Ok (enumConverter goType def).

Definition newMessageConverter (goType : rtype) : result Converter :=
  Ok (messageConverter goType).

(** The [switch fd.Kind()] of [newSingularConverter]. *)
Definition newSingularConverter_switch (t : rtype) (fd : FieldDescriptor)
  : flow (result Converter) :=
  let kind_is k := bool_decide (reflect.Type_Kind t = k) in
  match protoreflect.FieldKind fd with
  | protoreflect.BoolKind =>
      if kind_is reflect.Bool
      then Return (Ok (boolConverter t (defVal fd boolZero)))
      else Fallthrough
  | protoreflect.Int32Kind | protoreflect.Sint32Kind
  | protoreflect.Sfixed32Kind =>
      if kind_is reflect.Int32
      then Return (Ok (int32Converter t (defVal fd int32Zero)))
      else Fallthrough
  | protoreflect.Int64Kind | protoreflect.Sint64Kind
  | protoreflect.Sfixed64Kind =>
      if kind_is reflect.Int64
      then Return (Ok (int64Converter t (defVal fd int64Zero)))
      else Fallthrough
  | protoreflect.Uint32Kind | protoreflect.Fixed32Kind =>
      if kind_is reflect.Uint32
      then Return (Ok (uint32Converter t (defVal fd uint32Zero)))
      else Fallthrough
  | protoreflect.Uint64Kind | protoreflect.Fixed64Kind =>
      if kind_is reflect.Uint64
      then Return (Ok (uint64Converter t (defVal fd uint64Zero)))
      else Fallthrough
  | protoreflect.FloatKind =>
      if kind_is reflect.Float32
      then Return (Ok (float32Converter t (defVal fd float32Zero)))
      else Fallthrough
  | protoreflect.DoubleKind =>
      if kind_is reflect.Float64
      then Return (Ok (float64Converter t (defVal fd float64Zero)))
      else Fallthrough
  | protoreflect.StringKind =>
      guard (text_or_bytes t) (Ok (stringConverter t (defVal fd stringZero)))
  | protoreflect.BytesKind =>
      guard (text_or_bytes t) (Ok (bytesConverter t (defVal fd bytesZero)))
  | protoreflect.EnumKind =>
      (* Handle enums, which must be a named int32 type. *)
      if kind_is reflect.Int32
      then Return (newEnumConverter t fd)
      else Fallthrough
  | protoreflect.MessageKind | protoreflect.GroupKind =>
      Return (newMessageConverter t)
  end.

(** [newSingularConverter]: the switch, and after it the [panic] for a
    native type that no case accepted. *)
Definition newSingularConverter (t : rtype) (fd : FieldDescriptor)
  : result Converter :=
  match newSingularConverter_switch t fd with
  | Return r => r
  | Fallthrough => Panic (StringPanic (invalid_Go_type t fd))
  end.

(** [isNonPointer] reports whether the type is a non-pointer type. *)
Definition isNonPointer (goType : rtype) : bool :=
  negb (bool_decide (reflect.Type_Kind goType = reflect.Ptr)).

(** The first statement of every [PBValueOf]:
    [if v.Type() != c.goType { panic(...) }]. *)
Definition check_type (v : reflect.Value) (goType : rtype) : result unit :=
  t <- reflect.Value_Type v;;
  if bool_decide (t <> goType)
  then Panic (StringPanic (invalid_type t goType))
  else Ok tt.

(** Modelled from the spec: [m.ProtoReflect()], the method of the native
    message type (declared outside this file), wraps the native pointer via
    the message-reflection system; the handle gives the pointer back. *)
Definition ProtoReflect (m : reflect.Value) : protoreflect.Message :=
  {| protoreflect.protoUnwrap := Some m;
     protoreflect.Interface := m;
     protoreflect.legacy := false |}.

(** Modelled from the spec: [legacyWrapMessage], the legacy wrap adapter
    (declared outside this file), synthesizes the message-reflection
    capability for a native value that does not implement it; the handle
    gives the value back. *)
Definition legacyWrapMessage (v : reflect.Value) : protoreflect.Message :=
  let i := r ← v; reflect.ValueOf (reflect.typ r) (reflect.data r) in
  {| protoreflect.protoUnwrap := Some i;
     protoreflect.Interface := i;
     protoreflect.legacy := true |}.

Definition result_map {A B} (f : A -> B) (r : result A) : result B :=
  a <- r;; Ok (f a).

(** ** Vocabulary of the properties *)

(** The seven scalar kinds of converter. *)
Inductive scalar_kind :=
| Kbool | Kint32 | Kint64 | Kuint32 | Kuint64 | Kfloat32 | Kfloat64.

#[global] Instance scalar_kind_eq_dec : EqDecision scalar_kind.
Proof. solve_decision. Defined.

Definition scalar_kind_of (c : Converter) : option scalar_kind :=
  match c with
  | boolConverter _ _ => Some Kbool
  | int32Converter _ _ => Some Kint32
  | int64Converter _ _ => Some Kint64
  | uint32Converter _ _ => Some Kuint32
  | uint64Converter _ _ => Some Kuint64
  | float32Converter _ _ => Some Kfloat32
  | float64Converter _ _ => Some Kfloat64
  | _ => None
  end.

Definition is_scalar (c : Converter) : bool :=
  match scalar_kind_of c with Some _ => true | None => false end.

(** The [reflect.Kind] that the factory requires of the native type. *)
Definition scalar_Kind (k : scalar_kind) : reflect.Kind :=
  match k with
  | Kbool => reflect.Bool
  | Kint32 => reflect.Int32
  | Kint64 => reflect.Int64
  | Kuint32 => reflect.Uint32
  | Kuint64 => reflect.Uint64
  | Kfloat32 => reflect.Float32
  | Kfloat64 => reflect.Float64
  end.

Definition is_message (c : Converter) : bool :=
  match c with messageConverter _ => true | _ => false end.

(** The test on the native type that stands before the construction of
    each converter in [newSingularConverter]. *)
Definition factory_test (c : Converter) (t : rtype) : result bool :=
  match c with
  | boolConverter _ _ => Ok (bool_decide (reflect.Type_Kind t = reflect.Bool))
  | int32Converter _ _ | enumConverter _ _ =>
      Ok (bool_decide (reflect.Type_Kind t = reflect.Int32))
  | int64Converter _ _ => Ok (bool_decide (reflect.Type_Kind t = reflect.Int64))
  | uint32Converter _ _ =>
      Ok (bool_decide (reflect.Type_Kind t = reflect.Uint32))
  | uint64Converter _ _ =>
      Ok (bool_decide (reflect.Type_Kind t = reflect.Uint64))
  | float32Converter _ _ =>
      Ok (bool_decide (reflect.Type_Kind t = reflect.Float32))
  | float64Converter _ _ =>
      Ok (bool_decide (reflect.Type_Kind t = reflect.Float64))
  | stringConverter _ _ | bytesConverter _ _ => text_or_bytes t
  | messageConverter _ => Ok true
  end.

(** The abstract values that the accessor used by [GoValueOf] of a scalar
    converter takes: [v.Bool()] a boolean, [v.Int()] an int32 or an int64,
    [v.Uint()] a uint32 or a uint64, [v.Float()] a float32 or a float64. *)
Definition accessor_takes (c : Converter) (v : protoreflect.Value) : bool :=
  match c, v with
  | boolConverter _ _, ValueOfBool _ => true
  | (int32Converter _ _ | int64Converter _ _),
    (ValueOfInt32 _ | ValueOfInt64 _) => true
  | (uint32Converter _ _ | uint64Converter _ _),
    (ValueOfUint32 _ | ValueOfUint64 _) => true
  | (float32Converter _ _ | float64Converter _ _),
    (ValueOfFloat32 _ | ValueOfFloat64 _) => true
  | _, _ => false
  end.

(** The contents that a variable of a given kind can hold. *)
Definition fits (k : reflect.Kind) (p : reflect.payload) : bool :=
  match k, p with
  | reflect.Bool, reflect.PBool _ => true
  | (reflect.Int | reflect.Int8 | reflect.Int16 | reflect.Int32
    | reflect.Int64), reflect.PInt n => in_signed (reflect.kind_bits k) n
  | (reflect.Uint | reflect.Uint8 | reflect.Uint16 | reflect.Uint32
    | reflect.Uint64 | reflect.Uintptr), reflect.PInt n =>
      in_unsigned (reflect.kind_bits k) n
  | reflect.Float32, reflect.PFloat x => is_float32 x
  | reflect.Float64, reflect.PFloat x => is_float64 x
  | reflect.Complex64, reflect.PComplex re im => is_float32 re && is_float32 im
  | reflect.Complex128, reflect.PComplex re im => is_float64 re && is_float64 im
  | reflect.String, reflect.PString _ => true
  | reflect.Slice, reflect.PSlice _ => true
  | (reflect.Ptr | reflect.UnsafePointer), reflect.PPtr _ => true
  | reflect.Struct, reflect.PStruct _ => true
  | _, _ => false
  end.

(** A native value whose contents fit the kind of its type. *)
Definition well_formed (v : reflect.Value) : bool :=
  match v with
  | Some r => fits (reflect.Type_Kind (reflect.typ r)) (reflect.data r)
  | None => true
  end.

(** Two native values with the same type and the same contents. *)
Definition same_representation (v w : reflect.Value) : Prop :=
  reflect.typ <$> v = reflect.typ <$> w /\
  reflect.data <$> v = reflect.data <$> w.

(** A native value of a float32 kind that holds a signalling NaN. *)
Definition signalling_float32 (v : reflect.Value) : bool :=
  match v with
  | Some r =>
      match reflect.data r with
      | reflect.PFloat x =>
          match reflect.Type_Kind (reflect.typ r) with
          | reflect.Float32 => signalling x
          | _ => false
          end
      | _ => false
      end
  | None => false
  end.

(** The native value with the NaN of a float32 kind replaced by its quiet
    NaN; every other value is left as it is. *)
Definition quiet_float32 (v : reflect.Value) : reflect.Value :=
  (fun r =>
     match reflect.data r with
     | reflect.PFloat x =>
         match reflect.Type_Kind (reflect.typ r) with
         | reflect.Float32 =>
             {| reflect.typ := reflect.typ r;
                reflect.data := reflect.PFloat (quiet x);
                reflect.addr := reflect.addr r |}
         | _ => r
         end
     | _ => r
     end) <$> v.

(** The primitive that an abstract scalar value holds. *)
Definition primitive (v : protoreflect.Value) : option reflect.payload :=
  match v with
  | ValueOfBool b => Some (reflect.PBool b)
  | ValueOfInt32 n | ValueOfInt64 n | ValueOfUint32 n | ValueOfUint64 n =>
      Some (reflect.PInt n)
  | ValueOfFloat32 x | ValueOfFloat64 x => Some (reflect.PFloat x)
  | _ => None
  end.

(** The default column of the factory's table for a repeated field: the
    zero value of the kind, and for an enum the number of the first
    declared value. *)
Definition repeated_default (fd : FieldDescriptor) (c : Converter)
  : option protoreflect.Value :=
  match c with
  | boolConverter _ _ => Some (ValueOfBool false)
  | int32Converter _ _ => Some (ValueOfInt32 0)
  | int64Converter _ _ => Some (ValueOfInt64 0)
  | uint32Converter _ _ => Some (ValueOfUint32 0)
  | uint64Converter _ _ => Some (ValueOfUint64 0)
  | float32Converter _ _ => Some (ValueOfFloat32 (S754_zero false))
  | float64Converter _ _ => Some (ValueOfFloat64 (S754_zero false))
  | stringConverter _ _ => Some (ValueOfString "")
  | bytesConverter _ _ => Some (ValueOfBytes None)
  | enumConverter _ _ =>
      match protoreflect.EnumValues fd with
      | Some (n :: _) => Some (ValueOfEnum n)
      | _ => None
      end
  | messageConverter _ => None
  end.

(** The representations the factory's table lists for a message field: a
    pointer to a named struct that implements the message capability, or a
    non-pointer named struct. *)
Definition expected_message_type (ProtoMessage : rtype -> bool) (t : rtype)
  : bool :=
  match t with
  | PtrTo (Defined _ _ u) =>
      bool_decide (reflect.Type_Kind u = reflect.Struct) && ProtoMessage t
  | Defined _ _ u => bool_decide (reflect.Type_Kind u = reflect.Struct)
  | _ => false
  end.

(** The native types for which [New] of a message converter allocates: the
    non-pointer types and the unnamed pointer types [*T]. *)
Definition allocatable (t : rtype) : bool :=
  match t with
  | PtrTo _ => true
  | _ => isNonPointer t
  end.

(** The variable that a message value refers to, if any: the target of the
    native pointer that its handle wraps. *)
Definition message_loc (v : protoreflect.Value) : option reflect.loc :=
  match v with
  | ValueOfMessage m =>
      match protoreflect.protoUnwrap m with
      | Some (Some r) => reflect.payload_ptr (reflect.data r)
      | _ => None
      end
  | _ => None
  end.

(** The state of a message as read through its handle. *)
Definition observe (v : protoreflect.Value) (h : reflect.heap)
  : option reflect.payload :=
  l ← message_loc v; h !! l.

(** Mutating a message through its handle overwrites the variable it
    refers to; a handle that refers to no variable cannot be mutated. *)
Definition mutate (v : protoreflect.Value) (x : reflect.payload)
  (h : reflect.heap) : option reflect.heap :=
  l ← message_loc v; Some (<[l := x]> h).

(** An abstract value whose number fits the width of its tag. An abstract
    float32 is kept as the float64 that [float64(v)] made of it, so it is
    a float32 that is no signalling NaN. *)
Definition abstract_well_formed (v : protoreflect.Value) : bool :=
  match v with
  | ValueOfInt32 n | ValueOfEnum n => in_signed 32 n
  | ValueOfInt64 n => in_signed 64 n
  | ValueOfUint32 n => in_unsigned 32 n
  | ValueOfUint64 n => in_unsigned 64 n
  | ValueOfFloat32 x => is_float32 x && negb (signalling x)
  | _ => true
  end.

(** The contents of a byte slice with the empty slice turned into the nil
    slice; other contents are unchanged. *)
Definition nil_if_empty (p : reflect.payload) : reflect.payload :=
  match p with
  | reflect.PSlice (Some []) => reflect.PSlice None
  | _ => p
  end.

(** A native value with [nil_if_empty] contents, not addressable. *)
Definition nil_if_empty_value (v : reflect.Value) : reflect.Value :=
  r ← v; reflect.ValueOf (reflect.typ r) (nil_if_empty (reflect.data r)).

(** A byte sequence with the empty sequence turned into the nil one. *)
Definition empty_to_nil (b : option (list byte)) : option (list byte) :=
  match b with
  | Some [] => None
  | _ => b
  end.

Definition is_bytes (c : Converter) : bool :=
  match c with bytesConverter _ _ => true | _ => false end.

(** Example inputs. *)
Definition example_field (k : protoreflect.Kind) (c : protoreflect.Cardinality)
  (d : protoreflect.Value) : FieldDescriptor :=
  {| protoreflect.FullName := "example.M.f";
     protoreflect.FieldKind := k;
     protoreflect.FieldCardinality := c;
     protoreflect.IsList := false;
     protoreflect.IsMap := false;
     protoreflect.Default := d;
     protoreflect.EnumValues := None |}.

Definition example_M : rtype :=
  Defined "example" "M"
    (StructOf (reflect.fcons "X" int32Type
                 (reflect.fcons "Y" stringType reflect.fnil))).

Definition example_P : rtype := Defined "example" "P" (PtrTo example_M).

Definition example_MyInt : rtype := Defined "example" "MyInt" int32Type.

Definition example_ProtoMessage (t : rtype) : bool :=
  bool_decide (t = PtrTo example_M).

Section Converters.

(** The Go types that implement [protoreflect.ProtoMessage], as the
    program declares them. *)
Variable ProtoMessage : rtype -> bool.

(** The list and map converters and their constructors, which are declared
    outside this file. *)
Variable Collection : Type.
Variable newListConverter : rtype -> FieldDescriptor -> result Collection.
Variable newMapConverter : rtype -> FieldDescriptor -> result Collection.

(** The [switch] of [NewConverter]. *)
Definition NewConverter_switch (t : rtype) (fd : FieldDescriptor)
  : flow (result (Collection + Converter)) :=
  if protoreflect.IsList fd then
    Return (result_map inl (newListConverter t fd))
  else if protoreflect.IsMap fd then
    Return (result_map inl (newMapConverter t fd))
  else
    Return (result_map inr (newSingularConverter t fd)).

(** [NewConverter] matches a Go type with a protobuf field and returns a
    converter between the two: the switch, and after it the [panic] of the
    source. *)
Definition NewConverter (t : rtype) (fd : FieldDescriptor)
  : result (Collection + Converter) :=
  match NewConverter_switch t fd with
  | Return r => r
  | Fallthrough => Panic (StringPanic (invalid_Go_type t fd))
  end.

(** [PBValueOf] converts a [reflect.Value] to a [protoreflect.Value]; one
    case for the method of each converter. *)
Definition PBValueOf (c : Converter) (v : reflect.Value)
  : result protoreflect.Value :=
  match c with
  | boolConverter goType _ =>
      _ <- check_type v goType;;
      b <- reflect.Value_Bool v;;
      Ok (ValueOfBool b)
  | int32Converter goType _ =>
      _ <- check_type v goType;;
      n <- reflect.Value_Int v;;
      Ok (ValueOfInt32 (wrap_signed 32 n))
  | int64Converter goType _ =>
      _ <- check_type v goType;;
      n <- reflect.Value_Int v;;
      Ok (ValueOfInt64 (wrap_signed 64 n))
  | uint32Converter goType _ =>
      _ <- check_type v goType;;
      n <- reflect.Value_Uint v;;
      Ok (ValueOfUint32 (wrap_unsigned 32 n))
  | uint64Converter goType _ =>
      _ <- check_type v goType;;
      n <- reflect.Value_Uint v;;
      Ok (ValueOfUint64 (wrap_unsigned 64 n))
  | float32Converter goType _ =>
      _ <- check_type v goType;;
      x <- reflect.Value_Float v;;
      Ok (ValueOfFloat32 (float32_of_float64 x))
  | float64Converter goType _ =>
      _ <- check_type v goType;;
      x <- reflect.Value_Float v;;
      Ok (ValueOfFloat64 x)
  | stringConverter goType _ =>
      _ <- check_type v goType;;
      s <- reflect.Value_Convert v stringType;;
      Ok (ValueOfString (reflect.Value_String s))
  | bytesConverter goType _ =>
      _ <- check_type v goType;;
      empty <-
        (if bool_decide (reflect.Type_Kind goType = reflect.String)
         then n <- reflect.Value_Len v;; Ok (n =? 0)
         else Ok false);;
      if (empty : bool) then
        Ok (ValueOfBytes None) (* ensure empty string is []byte(nil) *)
      else
        b <- reflect.Value_Convert v bytesType;;
        bs <- reflect.Value_Bytes b;;
        Ok (ValueOfBytes bs)
  | enumConverter goType _ =>
      _ <- check_type v goType;;
      n <- reflect.Value_Int v;;
      Ok (ValueOfEnum (wrap_signed 32 n))
  | messageConverter goType =>
      t <- reflect.Value_Type v;;
      if bool_decide (t <> goType)
      then Panic (StringPanic (invalid_type t goType))
      else
        v <-
          (if isNonPointer goType then
             if reflect.Value_CanAddr v
             then reflect.Value_Addr v (* T => *T *)
             else Ok (reflect.Zero (PtrTo t))
           else Ok v);;
        m <- reflect.Value_Interface v;;
        dyn <- reflect.Value_Type m;;
        if ProtoMessage dyn
        then Ok (ValueOfMessage (ProtoReflect m))
        else Ok (ValueOfMessage (legacyWrapMessage v))
  end.

(** [GoValueOf] converts a [protoreflect.Value] to a [reflect.Value]. The
    store [h] is read where the message converter dereferences a pointer
    ([rv.Elem()]). *)
Definition GoValueOf (c : Converter) (h : reflect.heap)
  (v : protoreflect.Value) : result reflect.Value :=
  match c with
  | boolConverter goType _ =>
      b <- protoreflect.Value_Bool v;;
      reflect.Value_Convert (reflect.ValueOf boolType (reflect.PBool b)) goType
  | int32Converter goType _ =>
      n <- protoreflect.Value_Int v;;
      reflect.Value_Convert
        (reflect.ValueOf int32Type (reflect.PInt (wrap_signed 32 n))) goType
  | int64Converter goType _ =>
      n <- protoreflect.Value_Int v;;
      reflect.Value_Convert
        (reflect.ValueOf int64Type (reflect.PInt (wrap_signed 64 n))) goType
  | uint32Converter goType _ =>
      n <- protoreflect.Value_Uint v;;
      reflect.Value_Convert
        (reflect.ValueOf uint32Type (reflect.PInt (wrap_unsigned 32 n))) goType
  | uint64Converter goType _ =>
      n <- protoreflect.Value_Uint v;;
      reflect.Value_Convert
        (reflect.ValueOf uint64Type (reflect.PInt (wrap_unsigned 64 n))) goType
  | float32Converter goType _ =>
      x <- protoreflect.Value_Float v;;
      reflect.Value_Convert
        (reflect.ValueOf float32Type (reflect.PFloat (float32_of_float64 x)))
        goType
  | float64Converter goType _ =>
      x <- protoreflect.Value_Float v;;
      reflect.Value_Convert
        (reflect.ValueOf float64Type (reflect.PFloat x)) goType
  | stringConverter goType _ =>
      (* pref.Value.String never panics, so we go through an interface
         conversion here to check the type. *)
      s <- protoreflect.Interface_string v;;
      if bool_decide (reflect.Type_Kind goType = reflect.Slice)
         && String.eqb s ""
      then Ok (reflect.Zero goType) (* ensure empty string is []byte(nil) *)
      else
        reflect.Value_Convert
          (reflect.ValueOf stringType (reflect.PString s)) goType
  | bytesConverter goType _ =>
      b <- protoreflect.Value_Bytes v;;
      reflect.Value_Convert
        (reflect.ValueOf bytesType (reflect.PSlice b)) goType
  | enumConverter goType _ =>
      n <- protoreflect.Value_Enum v;;
      reflect.Value_Convert
        (reflect.ValueOf EnumNumber (reflect.PInt n)) goType
  | messageConverter goType =>
      m <- protoreflect.Value_Message v;;
      let rv :=
        match protoreflect.protoUnwrap m with
        | Some u => u
        | None => protoreflect.Interface m
        end in
      rv <-
        (if isNonPointer goType then
           t <- reflect.Value_Type rv;;
           if bool_decide (t <> PtrTo goType)
           then Panic (StringPanic (invalid_type t (PtrTo goType)))
           else
             isnil <- reflect.Value_IsNil rv;;
             if negb isnil
             then reflect.Value_Elem h rv (* *T => T *)
             else e <- reflect.Type_Elem t;; Ok (reflect.Zero e)
         else Ok rv);;
      t <- reflect.Value_Type rv;;
      if bool_decide (t <> goType)
      then Panic (StringPanic (invalid_type t goType))
      else Ok rv
  end.

(** [_, ok := v.Interface().(T); return ok] *)
Definition holds (v : protoreflect.Value) (d : protoreflect.dynamic) : bool :=
  bool_decide (protoreflect.Interface_type v = d).

(** [IsValidPB] returns whether a [protoreflect.Value] is compatible with
    this type. It is a [result] because the method of the message
    converter calls [v.Message()], which may panic. *)
Definition IsValidPB (c : Converter) (v : protoreflect.Value) : result bool :=
  match c with
  | boolConverter _ _ => Ok (holds v protoreflect.Dbool)
  | int32Converter _ _ => Ok (holds v protoreflect.Dint32)
  | int64Converter _ _ => Ok (holds v protoreflect.Dint64)
  | uint32Converter _ _ => Ok (holds v protoreflect.Duint32)
  | uint64Converter _ _ => Ok (holds v protoreflect.Duint64)
  | float32Converter _ _ => Ok (holds v protoreflect.Dfloat32)
  | float64Converter _ _ => Ok (holds v protoreflect.Dfloat64)
  | stringConverter _ _ => Ok (holds v protoreflect.Dstring)
  | bytesConverter _ _ => Ok (holds v protoreflect.Dbytes)
  | enumConverter _ _ => Ok (holds v protoreflect.DEnumNumber)
  | messageConverter goType =>
      m <- protoreflect.Value_Message v;;
      let rv :=
        match protoreflect.protoUnwrap m with
        | Some u => u
        | None => protoreflect.Interface m
        end in
      t <- reflect.Value_Type rv;;
      if isNonPointer goType
      then Ok (bool_decide (t = PtrTo goType))
      else Ok (bool_decide (t = goType))
  end.

(** [return v.IsValid() && v.Type() == c.goType], the same in all eleven
    converters. *)
Definition IsValidGo (c : Converter) (v : reflect.Value) : result bool :=
  if reflect.Value_IsValid v
  then t <- reflect.Value_Type v;; Ok (bool_decide (t = goType c))
  else Ok false.

(** [New] returns a new field value: the default for the scalars, a new
    mutable value for a message, which [reflect.New] allocates in the
    store. *)
Definition New (c : Converter) (h : reflect.heap)
  : result (protoreflect.Value * reflect.heap) :=
  match c with
  | boolConverter _ def | int32Converter _ def | int64Converter _ def
  | uint32Converter _ def | uint64Converter _ def
  | float32Converter _ def | float64Converter _ def
  | stringConverter _ def | bytesConverter _ def | enumConverter _ def =>
      Ok (def, h)
  | messageConverter goType =>
      if isNonPointer goType then
        let '(p, h') := reflect.New goType h in
        v <- reflect.Value_Elem h' p;;
        m <- PBValueOf c v;;
        Ok (m, h')
      else
        e <- reflect.Type_Elem goType;;
        let '(p, h') := reflect.New e h in
        m <- PBValueOf c p;;
        Ok (m, h')
  end.

(** [Zero] returns the default for the scalars and an empty value for a
    message. *)
Definition Zero (c : Converter) : result protoreflect.Value :=
  match c with
  | boolConverter _ def | int32Converter _ def | int64Converter _ def
  | uint32Converter _ def | uint64Converter _ def
  | float32Converter _ def | float64Converter _ def
  | stringConverter _ def | bytesConverter _ def | enumConverter _ def =>
      Ok def
  | messageConverter goType => PBValueOf c (reflect.Zero goType)
  end.

(** * Properties *)

#[local] Arguments reflect.Value_Convert : simpl never.
#[local] Arguments round32 : simpl never.
#[local] Arguments round64 : simpl never.
#[local] Arguments wrap_signed : simpl never.
#[local] Arguments wrap_unsigned : simpl never.

(** ** Floating-point conversions *)

Lemma iter_pos_comm {A} (f : A -> A) p x :
  SpecFloat.iter_pos f p (f x) = f (SpecFloat.iter_pos f p x).
Proof.
  revert x. induction p as [p IH|p IH|]; intros x; simpl.
  - now rewrite !IH.
  - now rewrite !IH.
  - reflexivity.
Qed.

Lemma iter_pos_succ {A} (f : A -> A) p x :
  SpecFloat.iter_pos f (Pos.succ p) x = SpecFloat.iter_pos f p (f x).
Proof.
  revert x. induction p as [p IH|p IH|]; intros x; simpl.
  - rewrite !IH. now rewrite !iter_pos_comm.
  - reflexivity.
  - reflexivity.
Qed.

(** Shifting a mantissa left by [k] bits adds [k] digits. *)
Lemma digits2_shift m k :
  digits2_pos (Pos.iter xO m k) = (digits2_pos m + k)%positive.
Proof.
  induction k as [|k IH] using Pos.peano_ind.
  - simpl. lia.
  - rewrite Pos.iter_succ. simpl. rewrite IH. lia.
Qed.

(** Shifting right the bits that a left shift added loses nothing. *)
Lemma shr_shift m k :
  SpecFloat.iter_pos shr_1 k
    (Build_shr_record (Zpos (Pos.iter xO m k)) false false)
  = Build_shr_record (Zpos m) false false.
Proof.
  induction k as [|k IH] using Pos.peano_ind.
  - reflexivity.
  - rewrite iter_pos_succ, Pos.iter_succ. simpl. exact IH.
Qed.

Lemma float32_bounds s m e :
  is_float32 (S754_finite s m e) = true ->
  Zpos (digits2_pos m) <= 24 /\ -149 <= e <= 104 /\
  fexp 24 128 (Zpos (digits2_pos m) + e) = e.
Proof.
  unfold is_float32, valid_binary, bounded, canonical_mantissa.
  intros H. apply andb_prop in H as [H1 H2].
  apply Z.eqb_eq in H1. apply Z.leb_le in H2.
  unfold fexp, emin in *. lia.
Qed.

(** Widening a finite float32 pads its mantissa to 53 bits. *)
Lemma float64_of_float32_finite s m e :
  is_float32 (S754_finite s m e) = true ->
  exists k, Zpos k = 53 - Zpos (digits2_pos m) /\
    round64 (S754_finite s m e)
    = S754_finite s (Pos.iter xO m k) (e - Zpos k).
Proof.
  intros H. destruct (float32_bounds _ _ _ H) as (Hd & He & Hc).
  destruct (53 - Zpos (digits2_pos m)) as [|k|k] eqn:Hk; try lia.
  exists k. split; [reflexivity|].
  unfold round64, binary_round.
  assert (Hf : fexp 53 1024 (Zpos (digits2_pos m) + e) = e - Zpos k)
    by (unfold fexp, emin; lia).
  rewrite Hf. unfold shl_align.
  replace (e - Zpos k - e) with (Zneg k) by lia.
  unfold binary_round_aux, shr_fexp. simpl Zdigits2.
  rewrite digits2_shift.
  assert (Hf' : fexp 53 1024 (Zpos (digits2_pos m + k) + (e - Zpos k))
                = e - Zpos k)
    by (unfold fexp, emin; lia).
  rewrite Hf'. rewrite Z.sub_diag. simpl.
  rewrite digits2_shift, Hf', Z.sub_diag. simpl.
  replace (e - Zpos k <=? 1024 - 53) with true
    by (symmetry; apply Z.leb_le; lia).
  reflexivity.
Qed.

(** Narrowing a widened float32 number gives the number back. *)
Lemma round32_round64 x :
  is_float32 (Fnum x) = true -> round32 (round64 x) = x.
Proof.
  destruct x as [s|s| |s m e]; try reflexivity.
  intros H. destruct (float64_of_float32_finite _ _ _ H) as (k & Hk & ->).
  destruct (float32_bounds _ _ _ H) as (Hd & He & Hc).
  assert (Hsum : Zpos (digits2_pos m + k) + (e - Zpos k)
                 = Zpos (digits2_pos m) + e) by lia.
  unfold round32, binary_round.
  rewrite digits2_shift, Hsum, Hc. unfold shl_align.
  replace (e - (e - Zpos k)) with (Zpos k) by lia.
  unfold binary_round_aux, shr_fexp. simpl Zdigits2.
  rewrite digits2_shift, Hsum, Hc.
  replace (e - (e - Zpos k)) with (Zpos k) by lia.
  unfold shr. simpl shr_record_of_loc. rewrite shr_shift. simpl.
  replace (e - Z.pos k + Z.pos k) with e by lia.
  rewrite Hc, Z.sub_diag. simpl.
  replace (e <=? 128 - 24) with true by (symmetry; apply Z.leb_le; lia).
  reflexivity.
Qed.

(** Narrowing a widened float32 gives the float32 back, with the quiet
    bit set if it is a NaN. *)
Lemma float32_of_float64_of_float32 x :
  is_float32 x = true -> float32_of_float64 (float64_of_float32 x) = quiet x.
Proof.
  destruct x as [y|s q p]; intros H; simpl.
  - now rewrite (round32_round64 y H).
  - unfold is_float32, is_nan_payload in H.
    apply andb_prop in H as [H _]. apply andb_prop in H as [H _].
    apply Z.leb_le in H.
    rewrite Z.shiftr_shiftl_l by lia. now rewrite Z.sub_diag.
Qed.

Lemma quiet_not_signalling x : signalling x = false -> quiet x = x.
Proof. destruct x as [y|s [|] p]; try reflexivity. discriminate. Qed.

Lemma quiet_quiet x : quiet (quiet x) = quiet x.
Proof. now destruct x. Qed.

Lemma is_float32_quiet x : is_float32 x = true -> is_float32 (quiet x) = true.
Proof.
  destruct x as [y|s q p]; [easy|]. unfold is_float32, is_nan_payload. simpl.
  intros H. apply andb_prop in H as [H _]. rewrite H. reflexivity.
Qed.

#[local] Arguments float32_of_float64 : simpl never.
#[local] Arguments float64_of_float32 : simpl never.

(** ** Fixed-width integers *)

Lemma wrap_signed_32 n : in_signed 32 n = true -> wrap_signed 32 n = n.
Proof.
  unfold in_signed, wrap_signed. intros H.
  apply andb_prop in H as [Hlo Hhi].
  apply Z.leb_le in Hlo. apply Z.ltb_lt in Hhi.
  change (2 ^ (32 - 1)) with 2147483648 in *.
  change (2 ^ 32) with 4294967296.
  rewrite Z.mod_small; lia.
Qed.

Lemma wrap_signed_64 n : in_signed 64 n = true -> wrap_signed 64 n = n.
Proof.
  unfold in_signed, wrap_signed. intros H.
  apply andb_prop in H as [Hlo Hhi].
  apply Z.leb_le in Hlo. apply Z.ltb_lt in Hhi.
  change (2 ^ (64 - 1)) with 9223372036854775808 in *.
  change (2 ^ 64) with 18446744073709551616.
  rewrite Z.mod_small; lia.
Qed.

Lemma wrap_unsigned_small w n :
  in_unsigned w n = true -> wrap_unsigned w n = n.
Proof.
  unfold in_unsigned, wrap_unsigned. intros H.
  apply andb_prop in H as [Hlo Hhi].
  apply Z.leb_le in Hlo. apply Z.ltb_lt in Hhi.
  apply Z.mod_small. lia.
Qed.

(** ** Types *)

Lemma basic_Kind_inj a b :
  reflect.basic_Kind a = reflect.basic_Kind b -> a = b.
Proof. destruct a, b; simpl; congruence. Qed.

(** A type of a basic kind has the predeclared type of that kind as its
    underlying type. *)
Lemma underlying_basic t b :
  reflect.Type_Kind t = reflect.basic_Kind b ->
  reflect.underlying t = Predeclared b.
Proof.
  induction t as [b0|pkg name u IH|e _|e _|fs]; simpl; intros H.
  - f_equal. now apply basic_Kind_inj.
  - now apply IH.
  - destruct b; discriminate.
  - destruct b; discriminate.
  - destruct b; discriminate.
Qed.

Lemma underlying_ptr t :
  reflect.Type_Kind t = reflect.Ptr ->
  exists e, reflect.underlying t = PtrTo e.
Proof.
  induction t as [b0|pkg name u IH|e _|e _|fs]; simpl; intros H;
    try discriminate.
  - destruct b0; discriminate.
  - now apply IH.
  - now exists e.
Qed.

Lemma zero_slice t :
  reflect.Type_Kind t = reflect.Slice -> reflect.zero t = reflect.PSlice None.
Proof.
  induction t as [b0|pkg name u IH|e _|e _|fs]; simpl; intros H;
    try discriminate.
  - destruct b0; discriminate.
  - now apply IH.
  - reflexivity.
Qed.

(** ** The factory *)

Ltac factory_cases fd :=
  unfold newSingularConverter, newSingularConverter_switch, guard,
    newEnumConverter, newMessageConverter, bind;
  destruct (protoreflect.FieldKind fd) eqn:?;
  repeat match goal with
  | |- context [bool_decide ?P] => destruct (bool_decide_reflect P)
  | |- context [text_or_bytes ?t] => destruct (text_or_bytes t) as [[|]| |]
  | |- context [protoreflect.EnumValues ?f] =>
      destruct (protoreflect.EnumValues f) as [[|? ?]|]
  end.

(** A converter that the factory built holds the native type it was built
    for, and that type passed the factory's test for the converter. *)
Lemma newSingularConverter_inv t fd c :
  newSingularConverter t fd = Ok c ->
  goType c = t /\ factory_test c t = Ok true.
Proof.
  unfold newSingularConverter, newSingularConverter_switch, guard,
    newEnumConverter, newMessageConverter, bind.
  destruct (protoreflect.FieldKind fd);
    repeat match goal with
    | |- context [bool_decide ?P] => destruct (bool_decide_reflect P)
    | |- context [text_or_bytes ?t] =>
        destruct (text_or_bytes t) as [[|]| |] eqn:?
    | |- context [protoreflect.EnumValues ?f] =>
        destruct (protoreflect.EnumValues f) as [[|? ?]|]
    end; intros [= <-]; simpl; split; auto;
    now rewrite bool_decide_eq_true_2.
Qed.

(** For a scalar converter, the native type has the kind of the
    converter. *)
Lemma newSingularConverter_scalar t fd c k :
  newSingularConverter t fd = Ok c ->
  scalar_kind_of c = Some k ->
  goType c = t /\ reflect.Type_Kind t = scalar_Kind k.
Proof.
  intros Hb Hk. apply newSingularConverter_inv in Hb as [Hg Ht].
  split; [exact Hg|].
  destruct c; simpl in Hk; try discriminate; injection Hk as <-;
    simpl in Ht; injection Ht as Ht; now apply bool_decide_eq_true_1 in Ht.
Qed.

Lemma underlying_slice t :
  reflect.Type_Kind t = reflect.Slice ->
  exists e, reflect.underlying t = SliceOf e.
Proof.
  induction t as [b0|pkg name u IH|e _|e _|fs]; simpl; intros H;
    try discriminate.
  - destruct b0; discriminate.
  - now apply IH.
  - now exists e.
Qed.

(** Evaluating the test on the native type of a string or bytes field
    never panics: [t.Elem()] is only called on a slice type. *)
Lemma text_or_bytes_total t : exists b, text_or_bytes t = Ok b.
Proof.
  unfold text_or_bytes.
  destruct (bool_decide_reflect (reflect.Type_Kind t = reflect.String))
    as [?|?]; [eauto|].
  destruct (bool_decide_reflect (reflect.Type_Kind t = reflect.Slice))
    as [Hs|?]; [|eauto].
  destruct (underlying_slice t Hs) as [e He].
  unfold reflect.Type_Elem. rewrite He. simpl. eauto.
Qed.

(** Where the test succeeds, the native type is text or a slice of bytes. *)
Lemma text_or_bytes_true t :
  text_or_bytes t = Ok true ->
  reflect.Type_Kind t = reflect.String \/
  (reflect.Type_Kind t = reflect.Slice /\
   reflect.underlying t = SliceOf byteType).
Proof.
  unfold text_or_bytes.
  destruct (bool_decide_reflect (reflect.Type_Kind t = reflect.String))
    as [?|?]; [auto|].
  destruct (bool_decide_reflect (reflect.Type_Kind t = reflect.Slice))
    as [Hs|?]; [|discriminate].
  destruct (underlying_slice t Hs) as [e He].
  unfold reflect.Type_Elem. rewrite He. simpl.
  destruct (bool_decide_reflect (e = byteType)) as [->|?]; [|discriminate].
  auto.
Qed.

(** ** Conversions between types of one kind *)

Lemma check_type_same t p a :
  check_type (Some {| reflect.typ := t; reflect.data := p; reflect.addr := a |}) t
  = Ok tt.
Proof.
  unfold check_type. simpl.
  destruct (bool_decide_reflect (t <> t)) as [Hne|_]; [|reflexivity].
  now contradiction Hne.
Qed.

Lemma check_type_mismatch v vt g :
  reflect.Value_Type v = Ok vt ->
  vt <> g ->
  check_type v g = Panic (StringPanic (invalid_type vt g)).
Proof.
  intros Ht Hne. unfold check_type. rewrite Ht. simpl.
  now rewrite bool_decide_eq_true_2.
Qed.

Lemma check_type_cases v g :
  (exists p a,
     v = Some {| reflect.typ := g; reflect.data := p; reflect.addr := a |} /\
     check_type v g = Ok tt) \/
  (exists e, check_type v g = Panic e).
Proof.
  destruct v as [[ty p a]|]; [|right; eexists; reflexivity].
  destruct (decide (ty = g)) as [->|Hne].
  - left. exists p, a. split; [reflexivity|apply check_type_same].
  - right. eexists. now apply check_type_mismatch.
Qed.

Lemma Convert_bool t p :
  reflect.Type_Kind t = reflect.Bool ->
  reflect.Value_Convert (reflect.ValueOf boolType p) t
  = Ok (reflect.ValueOf t p).
Proof.
  intros Hk. unfold reflect.Value_Convert, reflect.convertOp. simpl.
  rewrite (underlying_basic t reflect.Tbool Hk).
  now rewrite bool_decide_eq_true_2.
Qed.

Lemma Convert_int src t n :
  reflect.is_int_kind (reflect.Type_Kind src) = true ->
  reflect.is_int_kind (reflect.Type_Kind t) = true ->
  reflect.Value_Convert (reflect.ValueOf src (reflect.PInt n)) t
  = Ok (reflect.ValueOf t
          (reflect.PInt (wrap_signed (reflect.kind_bits (reflect.Type_Kind t)) n))).
Proof.
  intros Hs Hd. unfold reflect.Value_Convert, reflect.convertOp. simpl.
  rewrite Hs, Hd. simpl. unfold reflect.makeInt. now rewrite Hd.
Qed.

Lemma uint_kind_not_int k :
  reflect.is_uint_kind k = true -> reflect.is_int_kind k = false.
Proof. now destruct k. Qed.

Lemma Convert_uint src t n :
  reflect.is_uint_kind (reflect.Type_Kind src) = true ->
  reflect.is_uint_kind (reflect.Type_Kind t) = true ->
  reflect.Value_Convert (reflect.ValueOf src (reflect.PInt n)) t
  = Ok (reflect.ValueOf t
          (reflect.PInt
             (wrap_unsigned (reflect.kind_bits (reflect.Type_Kind t)) n))).
Proof.
  intros Hs Hd. unfold reflect.Value_Convert, reflect.convertOp. simpl.
  rewrite (uint_kind_not_int _ Hs), Hs, Hd, orb_true_r. simpl.
  unfold reflect.makeInt. now rewrite (uint_kind_not_int _ Hd).
Qed.

Lemma Convert_float32 t x :
  reflect.Type_Kind t = reflect.Float32 ->
  reflect.Value_Convert (reflect.ValueOf float32Type (reflect.PFloat x)) t
  = Ok (reflect.ValueOf t
          (reflect.PFloat (float32_of_float64 (float64_of_float32 x)))).
Proof.
  intros Hk. unfold reflect.Value_Convert, reflect.convertOp. simpl.
  rewrite Hk. simpl. unfold reflect.makeFloat. now rewrite Hk.
Qed.

Lemma Convert_float64 t x :
  reflect.Type_Kind t = reflect.Float64 ->
  reflect.Value_Convert (reflect.ValueOf float64Type (reflect.PFloat x)) t
  = Ok (reflect.ValueOf t (reflect.PFloat x)).
Proof.
  intros Hk. unfold reflect.Value_Convert, reflect.convertOp. simpl.
  rewrite Hk. simpl. unfold reflect.makeFloat. now rewrite Hk.
Qed.

(** Text and byte slices convert to [string] and to [[]byte], and back. *)
Lemma Convert_text_to_string t p a :
  text_or_bytes t = Ok true ->
  exists r,
    reflect.Value_Convert
      (Some {| reflect.typ := t; reflect.data := p; reflect.addr := a |})
      stringType = Ok r.
Proof.
  intros H. apply text_or_bytes_true in H as [Hk|[Hk Hu]];
    unfold reflect.Value_Convert, reflect.convertOp; simpl; rewrite Hk; simpl.
  - rewrite (underlying_basic t reflect.Tstring Hk).
    rewrite bool_decide_eq_true_2 by reflexivity. eauto.
  - unfold reflect.elem_of. rewrite Hu. simpl. eauto.
Qed.

Lemma Convert_text_to_bytes t p a :
  text_or_bytes t = Ok true ->
  exists r,
    reflect.Value_Convert
      (Some {| reflect.typ := t; reflect.data := p; reflect.addr := a |})
      bytesType = Ok r.
Proof.
  intros H. apply text_or_bytes_true in H as [Hk|[Hk Hu]];
    unfold reflect.Value_Convert, reflect.convertOp; simpl; rewrite Hk; simpl.
  - eauto.
  - unfold reflect.elem_of. rewrite ?Hu. simpl.
    rewrite ?bool_decide_eq_true_2 by reflexivity. eauto.
Qed.

Lemma Convert_string_to_text t p :
  text_or_bytes t = Ok true ->
  exists r, reflect.Value_Convert (reflect.ValueOf stringType p) t = Ok r.
Proof.
  intros H. apply text_or_bytes_true in H as [Hk|[Hk Hu]];
    unfold reflect.Value_Convert, reflect.convertOp; simpl; rewrite ?Hk; simpl.
  - unfold reflect.elem_of.
    rewrite (underlying_basic t reflect.Tstring Hk). simpl.
    rewrite ?bool_decide_eq_true_2 by reflexivity. eauto.
  - unfold reflect.elem_of. rewrite ?Hu. simpl. rewrite ?Hk. simpl. eauto.
Qed.

Lemma Convert_bytes_to_text t p :
  text_or_bytes t = Ok true ->
  exists r, reflect.Value_Convert (reflect.ValueOf bytesType p) t = Ok r.
Proof.
  intros H. apply text_or_bytes_true in H as [Hk|[Hk Hu]];
    unfold reflect.Value_Convert, reflect.convertOp; simpl; rewrite ?Hk; simpl.
  - eauto.
  - rewrite ?Hu. simpl.
    rewrite ?bool_decide_eq_true_2 by reflexivity. eauto.
Qed.

Lemma Value_Bytes_cases v :
  (exists b, reflect.Value_Bytes v = Ok b) \/
  (exists e, reflect.Value_Bytes v = Panic e).
Proof.
  destruct v as [[ty p a]|]; simpl; [|right; eexists; reflexivity].
  destruct (reflect.underlying ty); simpl;
    try (right; eexists; reflexivity).
  destruct (bool_decide _); [left|right]; eexists; reflexivity.
Qed.

(** ** The modelled fragment of [reflect] suffices *)

(** The conversions of [reflect.Value.Convert] that are left out of the
    model are never reached by a converter that the factory built: its
    [PBValueOf] and [GoValueOf] return or panic on every input. *)
Lemma factory_converters_modelled t fd c :
  newSingularConverter t fd = Ok c ->
  (forall v, PBValueOf c v <> Unmodelled) /\
  (forall h pv, GoValueOf c h pv <> Unmodelled).
Proof.
  intros Hb. apply newSingularConverter_inv in Hb as [Hg Ht].
  split.
  - intros v. destruct c; simpl in Hg, Ht; subst goType0;
      try (injection Ht as Ht; apply bool_decide_eq_true_1 in Ht);
      unfold PBValueOf.
    11: { destruct v as [[ty p [l|]]|]; simpl; try discriminate;
          destruct (bool_decide (ty <> t)); simpl; try discriminate;
          destruct (isNonPointer t); simpl;
          destruct (ProtoMessage _); discriminate. }
    all: destruct (check_type_cases v t) as [(p & a & -> & ->)|[e ->]];
      simpl; try discriminate; rewrite ?Ht; simpl; try discriminate.
    + destruct (Convert_text_to_string t p a Ht) as [r ->]. discriminate.
    + destruct (Convert_text_to_bytes t p a Ht) as [r Hr].
      assert (Hrest : (b <- reflect.Value_Convert
                              (Some {| reflect.typ := t; reflect.data := p;
                                       reflect.addr := a |}) bytesType;;
                       bs <- reflect.Value_Bytes b;; Ok (ValueOfBytes bs))
                      <> Unmodelled).
      { rewrite Hr. simpl.
        destruct (Value_Bytes_cases r) as [[b ->]|[e ->]]; discriminate. }
      destruct (text_or_bytes_true t Ht) as [Hk|[Hk Hu]].
      * rewrite bool_decide_eq_true_2 by assumption. rewrite Hk. simpl.
        destruct (_ =? 0); [discriminate|exact Hrest].
      * rewrite bool_decide_eq_false_2 by congruence. exact Hrest.
  - intros h pv. destruct c; simpl in Hg, Ht; subst goType0;
      try (injection Ht as Ht; apply bool_decide_eq_true_1 in Ht);
      unfold GoValueOf.
    11: { destruct pv as [| | | | | | | | | | |[u i lg]]; simpl;
            try discriminate.
          destruct (match u with Some u0 => u0 | None => i end)
            as [[ty p a]|]; simpl.
          2: { destruct (isNonPointer t); discriminate. }
          destruct (isNonPointer t); simpl.
          - destruct (bool_decide (ty <> PtrTo t)) eqn:Hty; simpl;
              try discriminate.
            apply bool_decide_eq_false_1 in Hty.
            assert (ty = PtrTo t) as ->
              by (destruct (decide (ty = PtrTo t)); tauto).
            simpl. destruct p as [| | | | | |[l|]|]; simpl;
              try discriminate;
              try (destruct (bool_decide (t <> t)); discriminate).
            destruct (h !! l); simpl; try discriminate.
            destruct (bool_decide (t <> t)); discriminate.
          - destruct (bool_decide (ty <> t)); discriminate. }
    all: destruct pv; simpl; try discriminate.
    + now rewrite (Convert_bool _ _ Ht).
    + rewrite Convert_int by (simpl; now rewrite ?Ht). discriminate.
    + rewrite Convert_int by (simpl; now rewrite ?Ht). discriminate.
    + rewrite Convert_int by (simpl; now rewrite ?Ht). discriminate.
    + rewrite Convert_int by (simpl; now rewrite ?Ht). discriminate.
    + rewrite Convert_uint by (simpl; now rewrite ?Ht). discriminate.
    + rewrite Convert_uint by (simpl; now rewrite ?Ht). discriminate.
    + rewrite Convert_uint by (simpl; now rewrite ?Ht). discriminate.
    + rewrite Convert_uint by (simpl; now rewrite ?Ht). discriminate.
    + now rewrite (Convert_float32 _ _ Ht).
    + now rewrite (Convert_float32 _ _ Ht).
    + now rewrite (Convert_float64 _ _ Ht).
    + now rewrite (Convert_float64 _ _ Ht).
    + destruct (_ && _); [discriminate|].
      destruct (Convert_string_to_text t (reflect.PString s) Ht) as [r Hr].
      unfold stringType in *. now rewrite Hr.
    + destruct (Convert_bytes_to_text t (reflect.PSlice b) Ht) as [r Hr].
      unfold bytesType in *. now rewrite Hr.
    + rewrite Convert_int by (simpl; now rewrite ?Ht). discriminate.
Qed.

(** ** The scalar converters *)

Lemma IsValidGo_true c v :
  IsValidGo c v = Ok true ->
  exists p a,
    v = Some {| reflect.typ := goType c; reflect.data := p; reflect.addr := a |}.
Proof.
  destruct v as [[t p a]|]; simpl; [|discriminate].
  intros [= H]. apply bool_decide_eq_true_1 in H. subst t. eauto.
Qed.

Lemma quiet_float32_not_signalling v :
  signalling_float32 v = false -> quiet_float32 v = v.
Proof.
  destruct v as [[t p a]|]; [|reflexivity]. unfold quiet_float32. simpl.
  destruct p; try reflexivity.
  destruct (reflect.Type_Kind t); try reflexivity.
  intros H. now rewrite (quiet_not_signalling x H).
Qed.

(** C1 (as the code has it): for every scalar kind converter that the
    factory built and every native value of the converter's resolved native
    type (one for which [IsValidGo] holds), [PBValueOf] succeeds and
    [GoValueOf] succeeds on its result. The native value that comes back
    has the type and the contents of the one that went in, with one
    exception: a float32 signalling NaN comes back as the quiet NaN of the
    same sign and payload, since the float32 converter widens the value to
    a float64 and narrows it again. *)
Theorem scalar_round_trip t fd c h v :
  newSingularConverter t fd = Ok c ->
  is_scalar c = true ->
  well_formed v = true ->
  IsValidGo c v = Ok true ->
  exists pv rv,
    PBValueOf c v = Ok pv /\
    GoValueOf c h pv = Ok rv /\
    same_representation rv (quiet_float32 v) /\
    (signalling_float32 v = false -> same_representation rv v).
Proof.
  intros Hbuilt Hs Hwf Hvalid.
  enough (H3 : exists pv rv,
             PBValueOf c v = Ok pv /\
             GoValueOf c h pv = Ok rv /\
             same_representation rv (quiet_float32 v)).
  { destruct H3 as (pv & rv & H1 & H2 & H3). exists pv, rv.
    split; [exact H1|]. split; [exact H2|]. split; [exact H3|].
    intros Hq. now rewrite (quiet_float32_not_signalling v Hq) in H3. }
  unfold is_scalar in Hs.
  destruct (scalar_kind_of c) as [k|] eqn:Hk; [clear Hs|discriminate].
  destruct (newSingularConverter_scalar _ _ _ _ Hbuilt Hk) as [Hg HK].
  destruct (IsValidGo_true _ _ Hvalid) as (p & a & ->).
  rewrite Hg in *. clear Hbuilt Hvalid.
  unfold well_formed in Hwf. simpl in Hwf. rewrite HK in Hwf.
  destruct c; simpl in Hk; try discriminate; injection Hk as <-;
    simpl in Hg; subst goType0; simpl in HK, Hwf;
    destruct p; try discriminate Hwf;
    unfold PBValueOf, GoValueOf; rewrite check_type_same; simpl; rewrite HK;
    simpl.
  - (* bool *)
    eexists _, _. split; [reflexivity|]. simpl.
    rewrite (Convert_bool _ _ HK). split; [reflexivity|]. now split.
  - (* int32 *)
    eexists _, _. split; [reflexivity|]. simpl.
    rewrite Convert_int by (simpl; now rewrite ?HK).
    split; [reflexivity|]. rewrite HK. simpl.
    rewrite !(wrap_signed_32 n Hwf). now split.
  - (* int64 *)
    eexists _, _. split; [reflexivity|]. simpl.
    rewrite Convert_int by (simpl; now rewrite ?HK).
    split; [reflexivity|]. rewrite HK. simpl.
    rewrite !(wrap_signed_64 n Hwf). now split.
  - (* uint32 *)
    eexists _, _. split; [reflexivity|]. simpl.
    rewrite Convert_uint by (simpl; now rewrite ?HK).
    split; [reflexivity|]. rewrite HK. simpl.
    rewrite !(wrap_unsigned_small 32 n Hwf). now split.
  - (* uint64 *)
    eexists _, _. split; [reflexivity|]. simpl.
    rewrite Convert_uint by (simpl; now rewrite ?HK).
    split; [reflexivity|]. rewrite HK. simpl.
    rewrite !(wrap_unsigned_small 64 n Hwf). now split.
  - (* float32: widened by [v.Float()], narrowed by [float32(...)] *)
    eexists _, _. split; [reflexivity|]. simpl.
    rewrite (Convert_float32 _ _ HK).
    split; [reflexivity|].
    rewrite (float32_of_float64_of_float32 x Hwf).
    repeat (rewrite (float32_of_float64_of_float32 _ (is_float32_quiet x Hwf))
            || rewrite quiet_quiet).
    unfold quiet_float32. simpl. rewrite ?HK. now split.
  - (* float64 *)
    eexists _, _. split; [reflexivity|]. simpl.
    rewrite (Convert_float64 _ _ HK). split; [reflexivity|].
    unfold quiet_float32. simpl. rewrite ?HK. now split.
Qed.

(** C8: for every scalar kind converter that the factory built, [GoValueOf]
    does not fail on an abstract value of the converter's kind (one for
    which [IsValidPB] holds): it extracts the primitive from the abstract
    value and converts it to the resolved native type. What it returns is
    a native value of that type, not addressable, and its contents are the
    primitive that the abstract value holds (for an abstract value whose
    number fits the width of its tag, as every value of the Go type
    does). *)
Theorem scalar_GoValueOf_succeeds t fd c h pv :
  newSingularConverter t fd = Ok c ->
  is_scalar c = true ->
  IsValidPB c pv = Ok true ->
  exists r,
    GoValueOf c h pv = Ok (Some r) /\
    reflect.typ r = goType c /\
    reflect.addr r = None /\
    (abstract_well_formed pv = true -> primitive pv = Some (reflect.data r)).
Proof.
  intros Hbuilt Hs Hvalid. unfold is_scalar in Hs.
  destruct (scalar_kind_of c) as [k|] eqn:Hk; [clear Hs|discriminate].
  destruct (newSingularConverter_scalar _ _ _ _ Hbuilt Hk) as [Hg HK].
  clear Hbuilt.
  destruct c; simpl in Hk; try discriminate; injection Hk as <-;
    simpl in Hg; subst goType0; simpl in HK;
    destruct pv; try discriminate Hvalid; simpl.
  - rewrite (Convert_bool _ _ HK).
    eexists. repeat (split; [reflexivity|]). reflexivity.
  - rewrite Convert_int by (simpl; now rewrite ?HK).
    eexists. repeat (split; [reflexivity|]). intros Hwf. simpl.
    rewrite HK. simpl. now rewrite !(wrap_signed_32 n Hwf).
  - rewrite Convert_int by (simpl; now rewrite ?HK).
    eexists. repeat (split; [reflexivity|]). intros Hwf. simpl.
    rewrite HK. simpl. now rewrite !(wrap_signed_64 n Hwf).
  - rewrite Convert_uint by (simpl; now rewrite ?HK).
    eexists. repeat (split; [reflexivity|]). intros Hwf. simpl.
    rewrite HK. simpl. now rewrite !(wrap_unsigned_small 32 n Hwf).
  - rewrite Convert_uint by (simpl; now rewrite ?HK).
    eexists. repeat (split; [reflexivity|]). intros Hwf. simpl.
    rewrite HK. simpl. now rewrite !(wrap_unsigned_small 64 n Hwf).
  - rewrite (Convert_float32 _ _ HK).
    eexists. repeat (split; [reflexivity|]). intros Hwf. simpl.
    apply andb_prop in Hwf as [Hf Hq]. apply negb_true_iff in Hq.
    rewrite (float32_of_float64_of_float32 x Hf).
    repeat (rewrite (float32_of_float64_of_float32 _ (is_float32_quiet x Hf))
            || rewrite quiet_quiet).
    now rewrite (quiet_not_signalling x Hq).
  - rewrite (Convert_float64 _ _ HK).
    eexists. repeat (split; [reflexivity|]). reflexivity.
Qed.

(** An abstract value that the accessor of the converter's kind does not
    take makes [GoValueOf] of a scalar converter panic. *)
Lemma scalar_GoValueOf_other_family c h pv :
  is_scalar c = true ->
  accessor_takes c pv = false ->
  panics (GoValueOf c h pv) = true.
Proof.
  intros Hs. destruct c; try discriminate Hs; destruct pv; simpl;
    intros Hf; try discriminate Hf; reflexivity.
Qed.

(** What [PBValueOf] of a scalar converter returns is valid for that
    converter. *)
Lemma scalar_PBValueOf_valid c v pv :
  is_scalar c = true ->
  PBValueOf c v = Ok pv ->
  IsValidPB c pv = Ok true.
Proof.
  intros Hs. destruct c; try discriminate Hs; unfold PBValueOf;
    destruct (check_type v goType0) as [[]| |]; simpl; try discriminate;
    match goal with
    | |- context [bind ?r _] => destruct r; simpl; try discriminate
    end;
    intros [= <-]; reflexivity.
Qed.

(** C6: for two converters of distinct scalar kinds, an abstract value that
    is valid for the first is not valid for the second; for instance an
    abstract int64 value, valid for an int64 converter, fails [IsValidPB]
    on an int32 converter. *)
Theorem scalar_validity_disjoint c1 c2 k1 k2 v :
  scalar_kind_of c1 = Some k1 ->
  scalar_kind_of c2 = Some k2 ->
  k1 <> k2 ->
  IsValidPB c1 v = Ok true ->
  IsValidPB c2 v = Ok false.
Proof.
  intros H1 H2 Hne Hv.
  destruct c1; simpl in H1; try discriminate; injection H1 as <-;
    destruct c2; simpl in H2; try discriminate; injection H2 as <-;
    try (now contradiction Hne);
    destruct v; try (vm_compute in Hv; discriminate Hv); reflexivity.
Qed.

(** ** Fatal mismatches *)

Lemma newSingularConverter_string t fd g d :
  newSingularConverter t fd = Ok (stringConverter g d) ->
  g = t /\ text_or_bytes t = Ok true.
Proof. apply newSingularConverter_inv. Qed.

(** C3: constructing a singular converter for a field of kind bool with a
    native type of kind int32 panics (in [newSingularConverter], and so in
    [NewConverter] for a field that is neither a list nor a map), and the
    panic message names the native type and the field's full name;
    [PBValueOf] of a string converter that the factory built panics on a
    native boolean value, and the message names the actual and the
    expected type. *)
Theorem fatal_on_mismatch t fd :
  (protoreflect.FieldKind fd = protoreflect.BoolKind ->
   reflect.Type_Kind t = reflect.Int32 ->
   newSingularConverter t fd
   = Panic (StringPanic
       ("invalid Go type " +:+ reflect.Type_String t +:+ " for field "
        +:+ protoreflect.FullName fd)) /\
   (protoreflect.IsList fd = false ->
    protoreflect.IsMap fd = false ->
    NewConverter t fd
    = Panic (StringPanic
        ("invalid Go type " +:+ reflect.Type_String t +:+ " for field "
         +:+ protoreflect.FullName fd))))
  /\
  (forall g d v vt,
     newSingularConverter t fd = Ok (stringConverter g d) ->
     reflect.Value_Type v = Ok vt ->
     reflect.Type_Kind vt = reflect.Bool ->
     PBValueOf (stringConverter g d) v
     = Panic (StringPanic
         ("invalid type: got " +:+ reflect.Type_String vt +:+ ", want "
          +:+ reflect.Type_String g))).
Proof.
  split.
  - intros Hk Ht.
    assert (Hs : newSingularConverter t fd
                 = Panic (StringPanic (invalid_Go_type t fd))).
    { unfold newSingularConverter, newSingularConverter_switch.
      now rewrite Hk, Ht. }
    split; [exact Hs|].
    intros Hl Hm. unfold NewConverter, NewConverter_switch.
    now rewrite Hl, Hm, Hs.
  - intros g d v vt Hbuilt Hv Hvt.
    apply newSingularConverter_string in Hbuilt as [-> Htb].
    assert (Hne : vt <> t).
    { intros ->. apply text_or_bytes_true in Htb as [Hs|[Hs _]]; congruence. }
    unfold PBValueOf. now rewrite (check_type_mismatch _ _ _ Hv Hne).
Qed.

(** ** Empty text and absent bytes *)

(** C5: [PBValueOf] of a bytes converter whose native type is text maps
    the empty text to the nil byte sequence, and [GoValueOf] of a string
    converter whose native type is a byte slice maps the empty abstract
    text to the nil slice of that type. *)
Theorem empty_normalization g d h a :
  (reflect.Type_Kind g = reflect.String ->
   PBValueOf (bytesConverter g d)
     (Some {| reflect.typ := g; reflect.data := reflect.PString "";
              reflect.addr := a |})
   = Ok (ValueOfBytes None))
  /\
  (reflect.Type_Kind g = reflect.Slice ->
   GoValueOf (stringConverter g d) h (ValueOfString "")
   = Ok (Some {| reflect.typ := g; reflect.data := reflect.PSlice None;
                 reflect.addr := None |})).
Proof.
  split; intros Hk.
  - unfold PBValueOf. rewrite check_type_same. simpl.
    rewrite bool_decide_eq_true_2 by assumption. simpl.
    now rewrite Hk.
  - unfold GoValueOf. simpl.
    rewrite bool_decide_eq_true_2 by assumption. simpl.
    unfold reflect.Zero, reflect.ValueOf. now rewrite (zero_slice _ Hk).
Qed.

(** ** Defaults *)

(** C7: for every scalar, string, bytes or enum converter that the factory
    built from a field descriptor, [New] and [Zero] both return the field's
    declared default when the cardinality is not repeated; when it is
    repeated they return the zero value of the kind, and for an enum
    converter the number of the first declared enum value. *)
Theorem default_correctness t fd c h :
  newSingularConverter t fd = Ok c ->
  is_message c = false ->
  (protoreflect.FieldCardinality fd <> protoreflect.Repeated ->
   New c h = Ok (protoreflect.Default fd, h) /\
   Zero c = Ok (protoreflect.Default fd))
  /\
  (protoreflect.FieldCardinality fd = protoreflect.Repeated ->
   exists z,
     repeated_default fd c = Some z /\
     New c h = Ok (z, h) /\
     Zero c = Ok z).
Proof.
  intros Hbuilt Hmsg. split; intros Hcard.
  - assert (Hdef : forall z, defVal fd z = protoreflect.Default fd).
    { intros z. unfold defVal. now rewrite bool_decide_eq_false_2. }
    revert Hbuilt. factory_cases fd; intros [= <-]; simpl in *;
      rewrite ?Hdef; try discriminate; try contradiction; auto.
  - assert (Hdef : forall z, defVal fd z = z).
    { intros z. unfold defVal. now rewrite bool_decide_eq_true_2. }
    revert Hbuilt. unfold newSingularConverter, newSingularConverter_switch,
      guard, newEnumConverter, newMessageConverter, bind.
    rewrite !Hdef, (bool_decide_eq_true_2 _ Hcard).
    destruct (protoreflect.FieldKind fd);
      repeat match goal with
      | |- context [bool_decide ?P] => destruct (bool_decide_reflect P)
      | |- context [text_or_bytes ?t] =>
          destruct (text_or_bytes t) as [[|]| |]
      end;
      try discriminate;
      try (intros [= <-]; simpl in *; try discriminate; eauto).
    unfold repeated_default.
    destruct (protoreflect.EnumValues fd) as [[|n rest]|]; try discriminate.
    intros [= <-]. simpl. eauto.
Qed.

(** ** Dispatch *)

(** C10: [NewConverter] returns what exactly one of the three branch
    constructors returns, chosen by [IsList] and [IsMap]; its switch
    always executes a [return], so the [panic] that follows the switch is
    never reached. *)
Theorem NewConverter_returns_a_branch t fd :
  (exists r,
     NewConverter_switch t fd
     = Return r /\
     NewConverter t fd = r)
  /\
  ((protoreflect.IsList fd = true /\
    NewConverter t fd
    = result_map inl (newListConverter t fd))
   \/
   (protoreflect.IsList fd = false /\ protoreflect.IsMap fd = true /\
    NewConverter t fd
    = result_map inl (newMapConverter t fd))
   \/
   (protoreflect.IsList fd = false /\ protoreflect.IsMap fd = false /\
    NewConverter t fd
    = result_map inr (newSingularConverter t fd))).
Proof.
  unfold NewConverter, NewConverter_switch.
  destruct (protoreflect.IsList fd) eqn:Hl;
    [|destruct (protoreflect.IsMap fd) eqn:Hm];
    (split; [eexists; split; reflexivity|]); tauto.
Qed.

(** ** Message fields *)

(** C2 (as the code has it): for a field of kind message or group the
    singular dispatch makes no test on the native type; it constructs a
    message converter that holds the supplied native type, whatever that
    type is, and never panics. *)
Theorem message_kind_unchecked t fd :
  protoreflect.FieldKind fd = protoreflect.MessageKind \/
  protoreflect.FieldKind fd = protoreflect.GroupKind ->
  newSingularConverter t fd = Ok (messageConverter t) /\
  (protoreflect.IsList fd = false ->
   protoreflect.IsMap fd = false ->
   NewConverter t fd
   = Ok (inr (messageConverter t))).
Proof.
  intros Hk.
  assert (Hs : newSingularConverter t fd = Ok (messageConverter t)).
  { unfold newSingularConverter, newSingularConverter_switch.
    destruct Hk as [-> | ->]; reflexivity. }
  split; [exact Hs|].
  intros Hl Hm. unfold NewConverter, NewConverter_switch.
  now rewrite Hl, Hm, Hs.
Qed.

(** ** Validity checks *)

(** [IsValidGo] returns a boolean for every converter and every native
    value, the zero Value included. *)
Lemma IsValidGo_never_fails c v : exists b, IsValidGo c v = Ok b.
Proof.
  unfold IsValidGo. destruct v as [r|]; simpl; eauto.
Qed.

(** [IsValidPB] of the ten converters that are not the message converter
    returns a boolean for every abstract value. *)
Lemma IsValidPB_never_fails_unless_message c v :
  is_message c = false -> exists b, IsValidPB c v = Ok b.
Proof.
  destruct c; simpl; intros Hm; try discriminate; eauto.
Qed.

(** [IsValidPB] of a message converter panics on every abstract value that
    does not hold a message. *)
Lemma IsValidPB_message_not_message g v :
  protoreflect.Interface_type v <> protoreflect.DMessage ->
  panics (IsValidPB (messageConverter g) v) = true.
Proof.
  destruct v; simpl; intros H; try reflexivity. now contradiction H.
Qed.

(** C4 (where the code departs from it): [IsValidPB] of the message
    converter for [*example.M] does not return a boolean for an abstract
    int32 value: the call [v.Message()] panics. *)
Theorem IsValidPB_message_wrong_tag :
  IsValidPB (messageConverter (PtrTo example_M)) (ValueOfInt32 1)
  = Panic (StringPanic "type mismatch: cannot convert int32 to message").
Proof. reflexivity. Qed.

(** ** New and Zero of the message converter *)

Lemma fresh_unallocated (h : reflect.heap) : h !! fresh (dom h) = None.
Proof. apply not_elem_of_dom. apply is_fresh. Qed.

(** What [New] of a message converter does for an allocatable native type:
    it allocates a zero variable at a location that was free and returns a
    handle that refers to it. *)
Lemma message_New_allocates g h :
  allocatable g = true ->
  exists m T,
    New (messageConverter g) h
    = Ok (m, <[fresh (dom h) := reflect.zero T]> h) /\
    message_loc m = Some (fresh (dom h)).
Proof.
  intros Ha. unfold New.
  destruct (isNonPointer g) eqn:Hnp.
  - (* T: the variable is allocated, and its address is taken *)
    unfold reflect.New. simpl. rewrite lookup_insert_eq. simpl.
    rewrite bool_decide_eq_false_2 by (intros Hne; now apply Hne).
    rewrite Hnp. simpl.
    destruct (ProtoMessage (PtrTo g)); eexists _, g; split; reflexivity.
  - (* *T: the pointee is allocated *)
    destruct g as [b|pkg name u|e|e|fs];
      try (unfold allocatable in Ha; congruence).
    unfold reflect.New. simpl.
    rewrite bool_decide_eq_false_2 by (intros Hne; now apply Hne).
    simpl.
    destruct (ProtoMessage (PtrTo e)); eexists _, e; split; reflexivity.
Qed.

(** [Zero] of a message converter hands the zero value of the native type
    to [PBValueOf]; the handle that comes back wraps a nil pointer. *)
Lemma message_Zero_nil g :
  exists z,
    Zero (messageConverter g) = Ok z /\
    message_loc z = None.
Proof.
  unfold Zero, PBValueOf. simpl.
  rewrite bool_decide_eq_false_2 by (intros Hne; now apply Hne).
  destruct (isNonPointer g) eqn:Hnp; simpl.
  - destruct (ProtoMessage (PtrTo g)); eexists; split; reflexivity.
  - assert (Hz : reflect.zero g = reflect.PPtr None).
    { unfold isNonPointer in Hnp. apply negb_false_iff in Hnp.
      apply bool_decide_eq_true_1 in Hnp. clear -Hnp.
      induction g as [b|pkg name u IH|e _|e _|fs]; simpl in *;
        try discriminate; auto.
      destruct b; discriminate. }
    destruct (ProtoMessage g); eexists; (split; [reflexivity|]);
      simpl; now rewrite Hz.
Qed.

(** C9 (as the code has it): for a message converter whose native type is
    a non-pointer type or an unnamed pointer type, each call to [New]
    allocates a variable at a location that was free and returns a handle
    to it, so two calls return handles to distinct variables, both can be
    mutated, and mutating the first leaves the state of the second
    unchanged; [Zero], for every message converter, is [PBValueOf] of the
    zero value of the native type, and its result refers to no variable
    and cannot be mutated. *)
Theorem message_New_independent g h :
  allocatable g = true ->
  exists m1 h1 m2 h2 l1 l2 z,
    New (messageConverter g) h = Ok (m1, h1) /\
    New (messageConverter g) h1 = Ok (m2, h2) /\
    message_loc m1 = Some l1 /\ h !! l1 = None /\
    message_loc m2 = Some l2 /\ h1 !! l2 = None /\
    l1 <> l2 /\
    is_Some (observe m1 h2) /\ is_Some (observe m2 h2) /\
    (forall x, exists h3,
       mutate m1 x h2 = Some h3 /\
       observe m1 h3 = Some x /\
       observe m2 h3 = observe m2 h2) /\
    Zero (messageConverter g)
    = PBValueOf (messageConverter g) (reflect.Zero g) /\
    Zero (messageConverter g) = Ok z /\
    message_loc z = None /\
    (forall x h', mutate z x h' = None).
Proof.
  intros Ha.
  destruct (message_New_allocates g h Ha) as (m1 & T1 & HN1 & Hl1).
  set (l1 := fresh (dom h)) in *.
  set (h1 := <[l1 := reflect.zero T1]> h) in *.
  destruct (message_New_allocates g h1 Ha) as (m2 & T2 & HN2 & Hl2).
  set (l2 := fresh (dom h1)) in *.
  set (h2 := <[l2 := reflect.zero T2]> h1) in *.
  destruct (message_Zero_nil g) as (z & HZ & Hlz).
  assert (Hfree1 : h !! l1 = None) by apply fresh_unallocated.
  assert (Hfree2 : h1 !! l2 = None) by apply fresh_unallocated.
  assert (Hne : l1 <> l2).
  { intros Heq. rewrite <- Heq in Hfree2. unfold h1 in Hfree2.
    now rewrite lookup_insert_eq in Hfree2. }
  exists m1, h1, m2, h2, l1, l2, z.
  repeat split; try assumption; try reflexivity.
  - unfold observe. rewrite Hl1. simpl. unfold h2, h1.
    rewrite lookup_insert_ne by auto. rewrite lookup_insert_eq. eauto.
  - unfold observe. rewrite Hl2. simpl. unfold h2.
    rewrite lookup_insert_eq. eauto.
  - intros x. exists (<[l1 := x]> h2). unfold mutate, observe.
    rewrite Hl1, Hl2. simpl. repeat split.
    + apply lookup_insert_eq.
    + now apply lookup_insert_ne.
  - intros x h'. unfold mutate. now rewrite Hlz.
Qed.

(** * Further properties of the converters *)

#[local] Arguments isNonPointer : simpl never.
#[local] Arguments string_of_list_byte : simpl never.
#[local] Arguments list_byte_of_string : simpl never.

Lemma not_not_eq (a b : rtype) : ~ a <> b -> a = b.
Proof. intros H. destruct (decide (a = b)); [assumption|contradiction]. Qed.

(** ** Results of [Convert] *)

(** Whatever [Convert] returns has the type that was asked for. *)
Lemma Convert_result_type v t rv :
  reflect.Value_Convert v t = Ok rv ->
  exists p, rv = reflect.ValueOf t p.
Proof.
  unfold reflect.Value_Convert. destruct v as [r|]; [|discriminate].
  destruct (reflect.convertOp t (reflect.typ r)) as [[]|];
    intros [= <-]; eauto.
Qed.

(** The four conversions between text and byte slices, from a value of a
    native type and to a native type. *)
Lemma Convert_text_string t p a :
  reflect.Type_Kind t = reflect.String ->
  reflect.Value_Convert
    (Some {| reflect.typ := t; reflect.data := p; reflect.addr := a |})
    stringType
  = Ok (reflect.ValueOf stringType p).
Proof.
  intros Hk. unfold reflect.Value_Convert, reflect.convertOp. simpl.
  rewrite Hk. simpl. rewrite (underlying_basic t reflect.Tstring Hk).
  rewrite ?bool_decide_eq_true_2 by reflexivity. reflexivity.
Qed.

Lemma Convert_slice_string t p a :
  reflect.Type_Kind t = reflect.Slice ->
  reflect.underlying t = SliceOf byteType ->
  reflect.Value_Convert
    (Some {| reflect.typ := t; reflect.data := p; reflect.addr := a |})
    stringType
  = Ok (reflect.ValueOf stringType
          (reflect.PString
             (string_of_list_byte (default [] (reflect.payload_slice p))))).
Proof.
  intros Hk Hu. unfold reflect.Value_Convert, reflect.convertOp. simpl.
  rewrite Hk. simpl. unfold reflect.elem_of. now rewrite Hu.
Qed.

Lemma Convert_text_bytes t p a :
  reflect.Type_Kind t = reflect.String ->
  reflect.Value_Convert
    (Some {| reflect.typ := t; reflect.data := p; reflect.addr := a |})
    bytesType
  = Ok (reflect.ValueOf bytesType
          (reflect.PSlice
             (Some (list_byte_of_string (reflect.payload_string p))))).
Proof.
  intros Hk. unfold reflect.Value_Convert, reflect.convertOp. simpl.
  now rewrite Hk.
Qed.

Lemma Convert_slice_bytes t p a :
  reflect.Type_Kind t = reflect.Slice ->
  reflect.underlying t = SliceOf byteType ->
  reflect.Value_Convert
    (Some {| reflect.typ := t; reflect.data := p; reflect.addr := a |})
    bytesType
  = Ok (reflect.ValueOf bytesType p).
Proof.
  intros Hk Hu. unfold reflect.Value_Convert, reflect.convertOp. simpl.
  rewrite Hk. simpl. unfold reflect.elem_of. rewrite Hu. simpl.
  rewrite ?bool_decide_eq_true_2 by reflexivity. reflexivity.
Qed.

Lemma Convert_string_text t p :
  reflect.Type_Kind t = reflect.String ->
  reflect.Value_Convert (reflect.ValueOf stringType p) t
  = Ok (reflect.ValueOf t p).
Proof.
  intros Hk. unfold reflect.Value_Convert, reflect.convertOp. simpl.
  unfold reflect.elem_of. rewrite (underlying_basic t reflect.Tstring Hk).
  simpl. rewrite ?bool_decide_eq_true_2 by reflexivity. reflexivity.
Qed.

Lemma Convert_string_slice t p :
  reflect.Type_Kind t = reflect.Slice ->
  reflect.underlying t = SliceOf byteType ->
  reflect.Value_Convert (reflect.ValueOf stringType p) t
  = Ok (reflect.ValueOf t
          (reflect.PSlice
             (Some (list_byte_of_string (reflect.payload_string p))))).
Proof.
  intros Hk Hu. unfold reflect.Value_Convert, reflect.convertOp. simpl.
  unfold reflect.elem_of. rewrite Hu. simpl. now rewrite Hk.
Qed.

Lemma Convert_bytes_text t p :
  reflect.Type_Kind t = reflect.String ->
  reflect.Value_Convert (reflect.ValueOf bytesType p) t
  = Ok (reflect.ValueOf t
          (reflect.PString
             (string_of_list_byte (default [] (reflect.payload_slice p))))).
Proof.
  intros Hk. unfold reflect.Value_Convert, reflect.convertOp. simpl.
  now rewrite Hk.
Qed.

Lemma Convert_bytes_slice t p :
  reflect.Type_Kind t = reflect.Slice ->
  reflect.underlying t = SliceOf byteType ->
  reflect.Value_Convert (reflect.ValueOf bytesType p) t
  = Ok (reflect.ValueOf t p).
Proof.
  intros Hk Hu. unfold reflect.Value_Convert, reflect.convertOp. simpl.
  rewrite Hk. simpl. rewrite Hu. rewrite ?bool_decide_eq_true_2 by reflexivity. reflexivity.
Qed.

(** ** Outputs are valid inputs *)

Lemma PBValueOf_valid c v pv :
  PBValueOf c v = Ok pv -> IsValidPB c pv = Ok true.
Proof.
  destruct c.
  1-10: unfold PBValueOf;
    destruct (check_type v goType0) as [[]| |]; simpl; try discriminate;
    repeat match goal with
    | |- context [bind ?r _] => destruct r; simpl; try discriminate
    | |- context [if ?b then _ else _] => destruct b; simpl; try discriminate
    end;
    intros [= <-]; reflexivity.
  unfold PBValueOf. destruct v as [[ty p a]|]; simpl; [|discriminate].
  destruct (bool_decide_reflect (ty <> goType0)) as [|Heq]; [discriminate|].
  apply not_not_eq in Heq. subst ty.
  destruct (isNonPointer goType0) eqn:Hnp; simpl.
  - destruct a as [l|]; simpl;
      destruct (ProtoMessage (PtrTo goType0)); intros [= <-]; simpl;
      now rewrite bool_decide_eq_true_2.
  - destruct (ProtoMessage goType0); intros [= <-]; simpl;
      now rewrite bool_decide_eq_true_2.
Qed.

(** What [PBValueOf] of any converter returns is valid for [IsValidPB] of
    the same converter. *)
Theorem PBValueOf_result_valid c v pv :
  PBValueOf c v = Ok pv -> IsValidPB c pv = Ok true.
Proof. apply PBValueOf_valid. Qed.

(** What [GoValueOf] of any converter returns is valid for [IsValidGo] of
    the same converter: it is a value of exactly the converter's native
    type. *)
Theorem GoValueOf_result_valid c h pv rv :
  GoValueOf c h pv = Ok rv -> IsValidGo c rv = Ok true.
Proof.
  assert (Hty : forall t, goType c = t ->
                  forall v, reflect.Value_Convert v t = Ok rv ->
                  IsValidGo c rv = Ok true).
  { intros t Ht v Hv. destruct (Convert_result_type _ _ _ Hv) as [p ->].
    unfold IsValidGo. simpl. rewrite Ht. now rewrite bool_decide_eq_true_2. }
  destruct c; simpl in Hty; unfold GoValueOf.
  1-7, 9-10:
    match goal with
    | |- context [bind ?r _] => destruct r; simpl; try discriminate
    end; now apply Hty.
  - destruct (protoreflect.Interface_string pv); simpl; try discriminate.
    destruct (_ && _).
    + intros [= <-]. unfold IsValidGo. simpl.
      now rewrite bool_decide_eq_true_2.
    + now apply Hty.
  - destruct (protoreflect.Value_Message pv) as [m| |]; simpl;
      try discriminate.
    match goal with
    | |- context [bind ?r _] => destruct r as [rv'| |]; simpl; try discriminate
    end.
    destruct rv' as [[ty p a]|]; simpl; [|discriminate].
    destruct (bool_decide_reflect (ty <> goType0)) as [|Heq]; [discriminate|].
    apply not_not_eq in Heq. subst ty.
    intros [= <-]. unfold IsValidGo. simpl. now rewrite bool_decide_eq_true_2.
Qed.

(** ** [IsValidGo] as the test before [PBValueOf] *)

(** For a converter that the factory built, [PBValueOf] returns exactly on
    the native values for which [IsValidGo] is true; on the others it
    panics, with the "invalid type" message for a value of another type
    and with the [reflect.ValueError] of [v.Type()] for the zero Value. *)
Theorem PBValueOf_iff_IsValidGo t fd c v :
  newSingularConverter t fd = Ok c ->
  (IsValidGo c v = Ok true -> exists pv, PBValueOf c v = Ok pv) /\
  (IsValidGo c v = Ok false ->
   PBValueOf c v
   = Panic match v with
           | Some r => StringPanic (invalid_type (reflect.typ r) (goType c))
           | None => ValueError "reflect.Value.Type" "invalid"
           end).
Proof.
  intros Hb. apply newSingularConverter_inv in Hb as [Hg Ht]. split.
  - intros Hv. destruct (IsValidGo_true _ _ Hv) as (p & a & ->).
    rewrite Hg. clear Hv.
    destruct c; simpl in Hg, Ht; subst goType0;
      try (injection Ht as Ht; apply bool_decide_eq_true_1 in Ht);
      unfold PBValueOf; rewrite ?check_type_same; simpl; rewrite ?Ht;
      simpl; eauto.
    + (* string *)
      destruct (Convert_text_to_string t p a Ht) as [r ->]. simpl. eauto.
    + (* bytes *)
      destruct (text_or_bytes_true t Ht) as [Hk|[Hk Hu]].
      * rewrite bool_decide_eq_true_2 by assumption. rewrite Hk. simpl.
        destruct (_ =? 0); [eauto|].
        rewrite (Convert_text_bytes _ _ _ Hk). simpl. eauto.
      * rewrite bool_decide_eq_false_2 by congruence.
        rewrite (Convert_slice_bytes _ _ _ Hk Hu). simpl. eauto.
    + (* message *)
      rewrite bool_decide_eq_false_2 by (intros Hne; now apply Hne).
      destruct (isNonPointer t); simpl.
      * destruct a; simpl; destruct (ProtoMessage _); eauto.
      * destruct (ProtoMessage _); eauto.
  - destruct v as [[ty p a]|]; simpl.
    + intros [= Hne]. apply bool_decide_eq_false_1 in Hne.
      destruct c; simpl in Hne |- *;
        try (now rewrite (check_type_mismatch
                            (Some {| reflect.typ := ty; reflect.data := p;
                                     reflect.addr := a |}) ty _ eq_refl Hne));
        now rewrite bool_decide_eq_true_2.
    + intros _. now destruct c.
Qed.

(** ** Round trips from the native side *)

Lemma string_of_list_byte_empty l : string_of_list_byte l = EmptyString -> l = [].
Proof.
  intros H. apply (f_equal list_byte_of_string) in H.
  now rewrite list_byte_of_string_of_list_byte in H.
Qed.

Lemma length_zero_empty s :
  (Z.of_nat (String.length s) =? 0) = true -> s = EmptyString.
Proof. destruct s; [reflexivity|]. simpl. discriminate. Qed.

Lemma length_nonzero_nonempty s :
  (Z.of_nat (String.length s) =? 0) = false -> s <> EmptyString.
Proof. intros H ->. discriminate H. Qed.

(** A native value goes through a string converter that the factory built
    and comes back with its type and contents, except that an empty byte
    slice comes back as the nil slice. *)
Theorem string_round_trip t fd g d h v :
  newSingularConverter t fd = Ok (stringConverter g d) ->
  well_formed v = true ->
  IsValidGo (stringConverter g d) v = Ok true ->
  exists pv rv,
    PBValueOf (stringConverter g d) v = Ok pv /\
    GoValueOf (stringConverter g d) h pv = Ok rv /\
    same_representation rv (nil_if_empty_value v).
Proof.
  intros Hb Hwf Hv. apply newSingularConverter_inv in Hb as [Hg Ht].
  simpl in Hg, Ht. subst g.
  destruct (IsValidGo_true _ _ Hv) as (p & a & ->). simpl in Hwf. clear Hv.
  unfold PBValueOf, GoValueOf. rewrite check_type_same. simpl.
  destruct (text_or_bytes_true t Ht) as [Hk|[Hk Hu]]; rewrite Hk in Hwf.
  - (* text *)
    destruct p as [| | | |s| | |]; try discriminate Hwf.
    rewrite (Convert_text_string _ _ _ Hk). simpl.
    eexists _, _. split; [reflexivity|].
    rewrite bool_decide_eq_false_2 by congruence. simpl.
    rewrite (Convert_string_text _ _ Hk). split; [reflexivity|]. now split.
  - (* byte slice *)
    destruct p as [| | | | |bs| |]; try discriminate Hwf.
    rewrite (Convert_slice_string _ _ _ Hk Hu). simpl.
    exists (ValueOfString (string_of_list_byte (default [] bs))). simpl.
    rewrite bool_decide_eq_true_2 by assumption. simpl.
    destruct (String.eqb_spec (string_of_list_byte (default [] bs)) "")
      as [He|He].
    + apply string_of_list_byte_empty in He.
      eexists. split; [reflexivity|]. split; [reflexivity|].
      unfold reflect.Zero. rewrite (zero_slice _ Hk).
      destruct bs as [[|b l]|]; try discriminate He; now split.
    + rewrite (Convert_string_slice _ _ Hk Hu).
      eexists. split; [reflexivity|]. split; [reflexivity|].
      simpl. rewrite list_byte_of_string_of_list_byte.
      destruct bs as [[|b l]|]; simpl; try (now contradiction He);
        now split.
Qed.

(** A native value goes through a bytes converter that the factory built
    and comes back with its type and contents: a string through the nil
    or non-nil byte sequence, a byte slice as it is, nil or empty. *)
Theorem bytes_round_trip t fd g d h v :
  newSingularConverter t fd = Ok (bytesConverter g d) ->
  well_formed v = true ->
  IsValidGo (bytesConverter g d) v = Ok true ->
  exists pv rv,
    PBValueOf (bytesConverter g d) v = Ok pv /\
    GoValueOf (bytesConverter g d) h pv = Ok rv /\
    same_representation rv v.
Proof.
  intros Hb Hwf Hv. apply newSingularConverter_inv in Hb as [Hg Ht].
  simpl in Hg, Ht. subst g.
  destruct (IsValidGo_true _ _ Hv) as (p & a & ->). simpl in Hwf. clear Hv.
  unfold PBValueOf, GoValueOf. rewrite check_type_same. simpl.
  destruct (text_or_bytes_true t Ht) as [Hk|[Hk Hu]]; rewrite Hk in Hwf.
  - (* text *)
    destruct p as [| | | |s| | |]; try discriminate Hwf.
    rewrite bool_decide_eq_true_2 by assumption. rewrite Hk. simpl.
    destruct (Z.of_nat (String.length s) =? 0) eqn:Hlen; simpl.
    + apply length_zero_empty in Hlen. subst s.
      eexists _, _. split; [reflexivity|]. simpl.
      rewrite (Convert_bytes_text _ _ Hk). split; [reflexivity|]. now split.
    + rewrite (Convert_text_bytes _ _ _ Hk). simpl.
      eexists _, _. split; [reflexivity|]. simpl.
      rewrite (Convert_bytes_text _ _ Hk). split; [reflexivity|]. simpl.
      rewrite string_of_list_byte_of_string. now split.
  - (* byte slice *)
    destruct p as [| | | | |bs| |]; try discriminate Hwf.
    rewrite bool_decide_eq_false_2 by congruence. simpl.
    rewrite (Convert_slice_bytes _ _ _ Hk Hu). simpl.
    eexists _, _. split; [reflexivity|]. simpl.
    rewrite (Convert_bytes_slice _ _ Hk Hu). split; [reflexivity|]. now split.
Qed.

(** A native enum value goes through an enum converter that the factory
    built and comes back with its type and number. *)
Theorem enum_round_trip t fd g d h v :
  newSingularConverter t fd = Ok (enumConverter g d) ->
  well_formed v = true ->
  IsValidGo (enumConverter g d) v = Ok true ->
  exists pv rv,
    PBValueOf (enumConverter g d) v = Ok pv /\
    GoValueOf (enumConverter g d) h pv = Ok rv /\
    same_representation rv v.
Proof.
  intros Hb Hwf Hv. apply newSingularConverter_inv in Hb as [Hg Ht].
  simpl in Hg, Ht. subst g. injection Ht as Ht.
  apply bool_decide_eq_true_1 in Ht.
  destruct (IsValidGo_true _ _ Hv) as (p & a & ->). simpl in Hwf. clear Hv.
  rewrite Ht in Hwf. destruct p as [|n| | | | | |]; try discriminate Hwf.
  simpl in Hwf.
  unfold PBValueOf, GoValueOf. rewrite check_type_same. simpl. rewrite Ht.
  simpl. eexists _, _. split; [reflexivity|]. simpl.
  rewrite Convert_int by (simpl; now rewrite ?Ht).
  split; [reflexivity|]. rewrite Ht. simpl.
  rewrite !(wrap_signed_32 n Hwf). now split.
Qed.

(** ** Round trips from the abstract side *)

Lemma wrap_signed_32_twice n :
  wrap_signed 32 (wrap_signed 32 n) = wrap_signed 32 n.
Proof.
  apply wrap_signed_32. unfold in_signed, wrap_signed.
  change (2 ^ (32 - 1)) with 2147483648.
  change (2 ^ 32) with 4294967296.
  pose proof (Z.mod_pos_bound (n + 2147483648) 4294967296 eq_refl).
  apply andb_true_intro. split; [apply Z.leb_le | apply Z.ltb_lt]; lia.
Qed.

Lemma wrap_unsigned_32_twice n :
  wrap_unsigned 32 (wrap_unsigned 32 n) = wrap_unsigned 32 n.
Proof. unfold wrap_unsigned. now apply Z.mod_mod. Qed.

(** An abstract value that is valid for a scalar, string or enum converter
    that the factory built, and whose number fits its tag, goes through
    [GoValueOf] and [PBValueOf] and comes back as it was. *)
Theorem abstract_round_trip t fd c h pv :
  newSingularConverter t fd = Ok c ->
  is_message c = false ->
  is_bytes c = false ->
  abstract_well_formed pv = true ->
  IsValidPB c pv = Ok true ->
  exists rv, GoValueOf c h pv = Ok rv /\ PBValueOf c rv = Ok pv.
Proof.
  intros Hb Hm Hby Hwf Hv. apply newSingularConverter_inv in Hb as [Hg Ht].
  destruct c; try discriminate Hm; try discriminate Hby;
    simpl in Hg, Ht; subst goType0;
    try (injection Ht as Ht; apply bool_decide_eq_true_1 in Ht);
    destruct pv; try discriminate Hv; simpl in Hwf; clear Hv;
    unfold GoValueOf; simpl.
  - rewrite (Convert_bool _ _ Ht). eexists. split; [reflexivity|].
    unfold PBValueOf, reflect.ValueOf. rewrite check_type_same. simpl.
    now rewrite Ht.
  - rewrite Convert_int by (simpl; now rewrite ?Ht).
    eexists. split; [reflexivity|].
    unfold PBValueOf, reflect.ValueOf. rewrite check_type_same. simpl.
    rewrite Ht. simpl. now rewrite !(wrap_signed_32 n Hwf).
  - rewrite Convert_int by (simpl; now rewrite ?Ht).
    eexists. split; [reflexivity|].
    unfold PBValueOf, reflect.ValueOf. rewrite check_type_same. simpl.
    rewrite Ht. simpl. now rewrite !(wrap_signed_64 n Hwf).
  - rewrite Convert_uint by (simpl; now rewrite ?Ht).
    eexists. split; [reflexivity|].
    unfold PBValueOf, reflect.ValueOf. rewrite check_type_same. simpl.
    rewrite Ht. simpl. now rewrite !(wrap_unsigned_small 32 n Hwf).
  - rewrite Convert_uint by (simpl; now rewrite ?Ht).
    eexists. split; [reflexivity|].
    unfold PBValueOf, reflect.ValueOf. rewrite check_type_same. simpl.
    rewrite Ht. simpl. now rewrite !(wrap_unsigned_small 64 n Hwf).
  - rewrite (Convert_float32 _ _ Ht). eexists. split; [reflexivity|].
    unfold PBValueOf, reflect.ValueOf. rewrite check_type_same. simpl.
    rewrite Ht. simpl.
    apply andb_prop in Hwf as [Hf Hq]. apply negb_true_iff in Hq.
    rewrite (float32_of_float64_of_float32 x Hf).
    repeat (rewrite (float32_of_float64_of_float32 _ (is_float32_quiet x Hf))
            || rewrite quiet_quiet).
    now rewrite (quiet_not_signalling x Hq).
  - rewrite (Convert_float64 _ _ Ht). eexists. split; [reflexivity|].
    unfold PBValueOf, reflect.ValueOf. rewrite check_type_same. simpl.
    now rewrite Ht.
  - (* string *)
    destruct (text_or_bytes_true t Ht) as [Hk|[Hk Hu]].
    + rewrite bool_decide_eq_false_2 by congruence. simpl.
      rewrite (Convert_string_text _ _ Hk). eexists. split; [reflexivity|].
      unfold PBValueOf, reflect.ValueOf. rewrite check_type_same. simpl.
      now rewrite (Convert_text_string _ _ _ Hk).
    + rewrite bool_decide_eq_true_2 by assumption. simpl.
      destruct (String.eqb_spec s "") as [->|He].
      * eexists. split; [reflexivity|].
        unfold PBValueOf, reflect.Zero, reflect.ValueOf.
        rewrite check_type_same. simpl.
        rewrite (Convert_slice_string _ _ _ Hk Hu). simpl.
        now rewrite (zero_slice _ Hk).
      * rewrite (Convert_string_slice _ _ Hk Hu).
        eexists. split; [reflexivity|].
        unfold PBValueOf, reflect.ValueOf. rewrite check_type_same. simpl.
        rewrite (Convert_slice_string _ _ _ Hk Hu). simpl.
        now rewrite string_of_list_byte_of_string.
  - (* enum *)
    rewrite Convert_int by (simpl; now rewrite ?Ht).
    eexists. split; [reflexivity|].
    unfold PBValueOf, reflect.ValueOf. rewrite check_type_same. simpl.
    rewrite Ht. simpl. now rewrite !(wrap_signed_32 n Hwf).
Qed.

(** An abstract byte sequence goes through a bytes converter that the
    factory built and comes back as it was when the native type is a byte
    slice; when the native type is text, the empty sequence comes back as
    the nil sequence and every other sequence as it was. *)
Theorem bytes_abstract_round_trip t fd g d h b :
  newSingularConverter t fd = Ok (bytesConverter g d) ->
  exists rv,
    GoValueOf (bytesConverter g d) h (ValueOfBytes b) = Ok rv /\
    PBValueOf (bytesConverter g d) rv
    = Ok (ValueOfBytes
            (if bool_decide (reflect.Type_Kind g = reflect.String)
             then empty_to_nil b else b)).
Proof.
  intros Hb. apply newSingularConverter_inv in Hb as [Hg Ht].
  simpl in Hg, Ht. subst g. unfold GoValueOf. simpl.
  destruct (text_or_bytes_true t Ht) as [Hk|[Hk Hu]].
  - rewrite (Convert_bytes_text _ _ Hk). eexists. split; [reflexivity|].
    unfold PBValueOf, reflect.ValueOf. rewrite check_type_same. simpl.
    rewrite bool_decide_eq_true_2 by assumption. rewrite Hk. simpl.
    destruct b as [l|]; [|reflexivity].
    change (default [] (reflect.payload_slice (reflect.PSlice (Some l))))
      with l.
    destruct (Z.of_nat (String.length (string_of_list_byte l)) =? 0)
      eqn:Hlen; simpl; rewrite Hlen.
    + apply length_zero_empty, string_of_list_byte_empty in Hlen.
      now subst l.
    + rewrite (Convert_text_bytes _ _ _ Hk). simpl.
      rewrite list_byte_of_string_of_list_byte.
      destruct l; [discriminate Hlen|reflexivity].
  - rewrite (Convert_bytes_slice _ _ Hk Hu). eexists. split; [reflexivity|].
    unfold PBValueOf, reflect.ValueOf. rewrite check_type_same. simpl.
    rewrite !bool_decide_eq_false_2 by congruence. simpl.
    now rewrite (Convert_slice_bytes _ _ _ Hk Hu).
Qed.

(** ** Values of the other width *)

(** [GoValueOf] of an int32 (uint32) converter that the factory built does
    not reject an abstract int64 (uint64) value, which [IsValidPB] of the
    same converter declares invalid: it keeps the low 32 bits. *)
Theorem GoValueOf_keeps_low_bits t fd g d h n :
  (newSingularConverter t fd = Ok (int32Converter g d) ->
   IsValidPB (int32Converter g d) (ValueOfInt64 n) = Ok false /\
   GoValueOf (int32Converter g d) h (ValueOfInt64 n)
   = Ok (reflect.ValueOf g (reflect.PInt (wrap_signed 32 n))))
  /\
  (newSingularConverter t fd = Ok (uint32Converter g d) ->
   IsValidPB (uint32Converter g d) (ValueOfUint64 n) = Ok false /\
   GoValueOf (uint32Converter g d) h (ValueOfUint64 n)
   = Ok (reflect.ValueOf g (reflect.PInt (wrap_unsigned 32 n)))).
Proof.
  split; intros Hb; apply newSingularConverter_inv in Hb as [Hg Ht];
    simpl in Hg, Ht; subst g; injection Ht as Ht;
    apply bool_decide_eq_true_1 in Ht; (split; [reflexivity|]);
    unfold GoValueOf; simpl.
  - rewrite Convert_int by (simpl; now rewrite ?Ht).
    rewrite Ht. simpl. now rewrite wrap_signed_32_twice.
  - rewrite Convert_uint by (simpl; now rewrite ?Ht).
    rewrite Ht. simpl. now rewrite wrap_unsigned_32_twice.
Qed.

(** ** The message converter *)

(** Discharges the tests [t != t] of a type against itself. *)
Ltac same_type :=
  repeat (rewrite bool_decide_eq_false_2 by (intros Hne; now apply Hne);
          simpl).

Lemma not_nonpointer_zero g :
  isNonPointer g = false -> reflect.zero g = reflect.PPtr None.
Proof.
  unfold isNonPointer. intros Hnp. apply negb_false_iff in Hnp.
  apply bool_decide_eq_true_1 in Hnp.
  induction g as [b|pkg name u IH|e _|e _|fs]; simpl in *;
    try discriminate; auto.
  destruct b; discriminate.
Qed.

(** A native pointer goes through the message converter of its type and
    comes back with its type and its target, whether or not the type
    implements the message capability. *)
Theorem message_round_trip_pointer g h v :
  isNonPointer g = false ->
  IsValidGo (messageConverter g) v = Ok true ->
  exists pv rv,
    PBValueOf (messageConverter g) v = Ok pv /\
    GoValueOf (messageConverter g) h pv = Ok rv /\
    same_representation rv v.
Proof.
  intros Hnp Hv. destruct (IsValidGo_true _ _ Hv) as (p & a & ->).
  clear Hv. simpl.
  destruct (isNonPointer g); [discriminate Hnp|].
  destruct (bool_decide_reflect (g <> g)) as [Hne|_];
    [now contradiction Hne|].
  simpl.
  destruct (ProtoMessage g); eexists _, _; (split; [reflexivity|]); simpl;
    rewrite bool_decide_eq_false_2 by (intros Hne; now apply Hne);
    (split; [reflexivity|]); now split.
Qed.

(** A native value of a non-pointer type goes through the message
    converter of that type by its address: when it is addressable, what
    comes back is the variable at that address with its current contents;
    when it is not, the converter passes a nil pointer instead, and what
    comes back is the zero value of the type, not the contents. *)
Theorem message_round_trip_value g h p a :
  isNonPointer g = true ->
  exists pv,
    PBValueOf (messageConverter g)
      (Some {| reflect.typ := g; reflect.data := p; reflect.addr := a |})
    = Ok pv /\
    match a with
    | Some l =>
        forall p', h !! l = Some p' ->
          GoValueOf (messageConverter g) h pv
          = Ok (Some {| reflect.typ := g; reflect.data := p';
                        reflect.addr := Some l |})
    | None => GoValueOf (messageConverter g) h pv = Ok (reflect.Zero g)
    end.
Proof.
  intros Hnp. simpl.
  destruct (isNonPointer g); [|discriminate Hnp].
  destruct (bool_decide_reflect (g <> g)) as [Hne|_];
    [now contradiction Hne|].
  destruct (bool_decide_reflect (PtrTo g <> PtrTo g)) as [Hne|_];
    [now contradiction Hne|].
  destruct a as [l|]; simpl.
  - destruct (ProtoMessage (PtrTo g)); eexists; (split; [reflexivity|]);
      intros p' Hl; simpl;
      rewrite bool_decide_eq_false_2 by (intros Hne; now apply Hne);
      simpl; rewrite Hl; simpl;
      now rewrite bool_decide_eq_false_2 by (intros Hne; now apply Hne).
  - destruct (ProtoMessage (PtrTo g)); eexists; (split; [reflexivity|]);
      simpl;
      rewrite bool_decide_eq_false_2 by (intros Hne; now apply Hne);
      simpl;
      now rewrite bool_decide_eq_false_2 by (intros Hne; now apply Hne).
Qed.

(** [GoValueOf] of a message converter returns only on abstract values
    for which [IsValidPB] of the converter is true; for a pointer type it
    returns on all of them. *)
Theorem message_GoValueOf_iff_IsValidPB g h pv :
  (forall rv,
     GoValueOf (messageConverter g) h pv = Ok rv ->
     IsValidPB (messageConverter g) pv = Ok true)
  /\
  (isNonPointer g = false ->
   IsValidPB (messageConverter g) pv = Ok true ->
   exists rv, GoValueOf (messageConverter g) h pv = Ok rv).
Proof.
  split.
  - intros rv. simpl.
    destruct (protoreflect.Value_Message pv) as [m| |]; simpl;
      try discriminate.
    destruct (match protoreflect.protoUnwrap m with
              | Some u => u
              | None => protoreflect.Interface m
              end) as [[ty p a]|]; simpl.
    2: { destruct (isNonPointer g); discriminate. }
    destruct (isNonPointer g); simpl.
    + destruct (bool_decide_reflect (ty <> PtrTo g)) as [|Heq];
        [discriminate|].
      intros _. f_equal. apply bool_decide_eq_true_2.
      now apply not_not_eq.
    + destruct (bool_decide_reflect (ty <> g)) as [|Heq]; [discriminate|].
      intros _. f_equal. apply bool_decide_eq_true_2.
      now apply not_not_eq.
  - intros Hnp. simpl. rewrite Hnp.
    destruct (protoreflect.Value_Message pv) as [m| |]; simpl;
      try discriminate.
    destruct (match protoreflect.protoUnwrap m with
              | Some u => u
              | None => protoreflect.Interface m
              end) as [[ty p a]|]; simpl; [|discriminate].
    intros [= Heq]. apply bool_decide_eq_true_1 in Heq. subst ty.
    rewrite bool_decide_eq_false_2 by (intros Hne; now apply Hne). eauto.
Qed.

(** [Zero] of a message converter is the absent message: [GoValueOf]
    makes of it the zero value of the native type, the nil pointer for a
    pointer type. *)
Theorem message_Zero_GoValueOf g h :
  exists z,
    Zero (messageConverter g) = Ok z /\
    GoValueOf (messageConverter g) h z = Ok (reflect.Zero g).
Proof.
  unfold Zero, PBValueOf. simpl. same_type.
  destruct (isNonPointer g) eqn:Hnp; simpl.
  - destruct (ProtoMessage (PtrTo g)); eexists; (split; [reflexivity|]);
      simpl; now same_type.
  - destruct (ProtoMessage g); eexists; (split; [reflexivity|]);
      simpl; now same_type.
Qed.

(** [GoValueOf] of what [New] of a message converter returns, read in the
    store that [New] leaves, is a native value of the converter's type at
    a location that was free before: for a non-pointer type the new
    variable itself, addressable and zero; for an unnamed pointer type the
    non-nil pointer to a new zero variable. *)
Theorem message_New_GoValueOf g h :
  allocatable g = true ->
  exists m h' l,
    New (messageConverter g) h = Ok (m, h') /\
    h !! l = None /\
    (isNonPointer g = true ->
     GoValueOf (messageConverter g) h' m
     = Ok (Some {| reflect.typ := g; reflect.data := reflect.zero g;
                   reflect.addr := Some l |})) /\
    (forall e, g = PtrTo e ->
       GoValueOf (messageConverter g) h' m
       = Ok (reflect.ValueOf g (reflect.PPtr (Some l))) /\
       h' !! l = Some (reflect.zero e)).
Proof.
  intros Ha. unfold New.
  destruct (isNonPointer g) eqn:Hnp.
  - unfold reflect.New. simpl. rewrite lookup_insert_eq. simpl.
    rewrite bool_decide_eq_false_2 by (intros Hne; now apply Hne).
    rewrite Hnp. simpl.
    destruct (ProtoMessage (PtrTo g)); eexists _, _, (fresh (dom h));
      (split; [reflexivity|]); (split; [apply fresh_unallocated|]);
      (split; [|intros e ->; discriminate Hnp]); intros _; simpl;
      rewrite ?Hnp; simpl;
      rewrite bool_decide_eq_false_2 by (intros Hne; now apply Hne);
      simpl; rewrite lookup_insert_eq; simpl;
      now rewrite bool_decide_eq_false_2 by (intros Hne; now apply Hne).
  - destruct g as [b|pkg name u|e|e|fs];
      try (unfold allocatable in Ha; congruence).
    unfold reflect.New. simpl.
    rewrite bool_decide_eq_false_2 by (intros Hne; now apply Hne).
    simpl.
    destruct (ProtoMessage (PtrTo e)); eexists _, _, (fresh (dom h));
      (split; [reflexivity|]); (split; [apply fresh_unallocated|]);
      (split; [discriminate|]); intros e' [= <-]; simpl;
      rewrite bool_decide_eq_false_2 by (intros Hne; now apply Hne);
      (split; [reflexivity|apply lookup_insert_eq]).
Qed.

(** ** Defaults are valid values *)

(** For a converter that the factory built for a repeated field, and for
    every message converter, what [Zero] and [New] return is valid for
    [IsValidPB] of that converter. (For a field that is not repeated the
    value is the descriptor's declared default, whatever it is.) *)
Theorem defaults_valid t fd c :
  newSingularConverter t fd = Ok c ->
  protoreflect.FieldCardinality fd = protoreflect.Repeated \/
  is_message c = true ->
  (forall z, Zero c = Ok z -> IsValidPB c z = Ok true) /\
  (forall h z h', New c h = Ok (z, h') -> IsValidPB c z = Ok true).
Proof.
  intros Hb Hor.
  destruct (is_message c) eqn:Hm.
  - destruct c; try discriminate Hm. split.
    + intros z. apply PBValueOf_valid.
    + intros h z h'. unfold New.
      destruct (isNonPointer goType0).
      * destruct (reflect.New goType0 h) as [p h1].
        destruct (reflect.Value_Elem h1 p) as [v| |]; cbn [bind];
          try discriminate.
        destruct (PBValueOf (messageConverter goType0) v) as [m| |] eqn:Hp;
          cbn [bind]; try discriminate.
        intros [= <- _]. exact (PBValueOf_valid _ _ _ Hp).
      * destruct (reflect.Type_Elem goType0) as [e| |]; cbn [bind];
          try discriminate.
        destruct (reflect.New e h) as [p h1].
        destruct (PBValueOf (messageConverter goType0) p) as [m| |] eqn:Hp;
          cbn [bind]; try discriminate.
        intros [= <- _]. exact (PBValueOf_valid _ _ _ Hp).
  - destruct Hor as [Hcard|]; [|discriminate].
    assert (Hdef : forall z, defVal fd z = z).
    { intros z. unfold defVal. now rewrite bool_decide_eq_true_2. }
    revert Hb. unfold newSingularConverter, newSingularConverter_switch,
      guard, newEnumConverter, newMessageConverter, bind.
    rewrite !Hdef, (bool_decide_eq_true_2 _ Hcard).
    destruct (protoreflect.FieldKind fd);
      repeat match goal with
      | |- context [bool_decide ?P] => destruct (bool_decide_reflect P)
      | |- context [text_or_bytes ?t] =>
          destruct (text_or_bytes t) as [[|]| |]
      | |- context [protoreflect.EnumValues ?f] =>
          destruct (protoreflect.EnumValues f) as [[|? ?]|]
      end;
      try discriminate; intros [= <-]; try discriminate Hm;
      (split; [intros ?|intros ? ? ?]; intros [= <-]; reflexivity).
Qed.

(** ** Outcomes of the factory *)

(** [newSingularConverter] returns a converter that holds the native type
    it was given, or panics with the "invalid Go type" message that names
    the native type and the field; the one other outcome is the runtime
    panic of [Get(0)] for a repeated enum field whose enum has no value.
    The call [t.Elem()] in the tests of the string and bytes kinds never
    panics. *)
Theorem newSingularConverter_outcomes t fd :
  (exists c, newSingularConverter t fd = Ok c /\ goType c = t) \/
  newSingularConverter t fd = Panic (StringPanic (invalid_Go_type t fd)) \/
  (protoreflect.FieldKind fd = protoreflect.EnumKind /\
   protoreflect.FieldCardinality fd = protoreflect.Repeated /\
   ~ (exists n rest, protoreflect.EnumValues fd = Some (n :: rest)) /\
   exists msg, newSingularConverter t fd = Panic (RuntimeError msg)).
Proof.
  destruct (text_or_bytes_total t) as [b Hb].
  unfold newSingularConverter, newSingularConverter_switch, guard,
    newEnumConverter, newMessageConverter, bind.
  rewrite Hb.
  destruct (protoreflect.FieldKind fd) eqn:Hk;
    repeat match goal with
    | |- context [bool_decide ?P] => destruct (bool_decide_reflect P)
    | |- context [if b then _ else _] => destruct b
    | |- context [protoreflect.EnumValues ?f] =>
        destruct (protoreflect.EnumValues f) as [[|? ?]|] eqn:?
    end;
    try (left; eexists; split; reflexivity);
    try (right; left; reflexivity);
    right; right; repeat split; eauto;
    intros (n & rest & [=]).
Qed.


(** ** What [New] leaves alone *)

(** [New] of any converter, when it returns, has changed no variable that
    the store held: the scalar converters return the store as it was, and
    the message converter only adds a variable at a free location. *)
Theorem New_preserves_store c h m h' l p :
  New c h = Ok (m, h') ->
  h !! l = Some p ->
  h' !! l = Some p.
Proof.
  intros HN Hl.
  assert (Hfresh : forall T,
            (<[fresh (dom h) := reflect.zero T]> h) !! l = Some p).
  { intros T. rewrite lookup_insert_ne; [exact Hl|].
    intros Heq. rewrite <- Heq, fresh_unallocated in Hl. discriminate. }
  destruct c; try (injection HN as <- <-; exact Hl).
  revert HN. unfold New.
  destruct (isNonPointer goType0).
  - unfold reflect.New.
    destruct (reflect.Value_Elem _ _) as [v| |]; cbn [bind];
      try discriminate.
    destruct (PBValueOf (messageConverter goType0) v) as [m'| |];
      cbn [bind]; try discriminate.
    intros [= _ <-]. apply Hfresh.
  - destruct (reflect.Type_Elem goType0) as [e| |]; cbn [bind];
      try discriminate.
    unfold reflect.New.
    destruct (PBValueOf (messageConverter goType0) _) as [m'| |];
      cbn [bind]; try discriminate.
    intros [= _ <-]. apply Hfresh.
Qed.
End Converters.

(** * The properties at concrete inputs *)

(** The float32 value 1.5 of a float32 field goes through the float32
    converter and comes back. *)
Lemma scalar_round_trip_witness :
  exists pv rv,
    PBValueOf example_ProtoMessage (float32Converter float32Type float32Zero)
      (reflect.ValueOf float32Type
         (reflect.PFloat (S754_finite false 12582912 (-23))))
    = Ok pv /\
    GoValueOf (float32Converter float32Type float32Zero) ∅ pv = Ok rv /\
    same_representation rv
      (reflect.ValueOf float32Type
         (reflect.PFloat (S754_finite false 12582912 (-23)))) /\
    (signalling_float32
       (reflect.ValueOf float32Type
          (reflect.PFloat (S754_finite false 12582912 (-23))))
     = false ->
     same_representation rv
       (reflect.ValueOf float32Type
          (reflect.PFloat (S754_finite false 12582912 (-23))))).
Proof.
  apply (scalar_round_trip example_ProtoMessage float32Type
           (example_field protoreflect.FloatKind protoreflect.Optional
              float32Zero));
    reflexivity.
Defined.

(** The float32 signalling NaN with payload 1 is a value of the type of a
    float32 converter that the factory built; what comes back from
    [PBValueOf] and [GoValueOf] is the quiet NaN with payload 1, whose
    contents are not those of the value that went in. *)
Lemma float32_signalling_nan_comes_back_quiet :
  newSingularConverter float32Type
    (example_field protoreflect.FloatKind protoreflect.Optional float32Zero)
  = Ok (float32Converter float32Type float32Zero) /\
  well_formed
    (reflect.ValueOf float32Type (reflect.PFloat (Fnan false false 1)))
  = true /\
  IsValidGo (float32Converter float32Type float32Zero)
    (reflect.ValueOf float32Type (reflect.PFloat (Fnan false false 1)))
  = Ok true /\
  PBValueOf example_ProtoMessage (float32Converter float32Type float32Zero)
    (reflect.ValueOf float32Type (reflect.PFloat (Fnan false false 1)))
  = Ok (ValueOfFloat32 (Fnan false true 1)) /\
  GoValueOf (float32Converter float32Type float32Zero) ∅
    (ValueOfFloat32 (Fnan false true 1))
  = Ok (reflect.ValueOf float32Type (reflect.PFloat (Fnan false true 1))) /\
  ~ same_representation
      (reflect.ValueOf float32Type (reflect.PFloat (Fnan false true 1)))
      (reflect.ValueOf float32Type (reflect.PFloat (Fnan false false 1))).
Proof.
  repeat (split; [reflexivity|]). intros [_ H]. discriminate H.
Qed.

(** An abstract int32 value converts to the named native type
    [example.MyInt], with its number. *)
Lemma scalar_GoValueOf_succeeds_witness :
  exists r,
    GoValueOf (int32Converter example_MyInt (ValueOfInt32 5)) ∅
      (ValueOfInt32 7)
    = Ok (Some r) /\
    reflect.typ r = example_MyInt /\
    reflect.addr r = None /\
    (abstract_well_formed (ValueOfInt32 7) = true ->
     Some (reflect.PInt 7) = Some (reflect.data r)).
Proof.
  apply (scalar_GoValueOf_succeeds example_MyInt
           (example_field protoreflect.Int32Kind protoreflect.Optional
              (ValueOfInt32 5)));
    reflexivity.
Defined.

(** An abstract int64 value is not valid for an int32 converter. *)
Lemma scalar_validity_disjoint_witness :
  IsValidPB (int32Converter int32Type int32Zero) (ValueOfInt64 7) = Ok false.
Proof.
  apply (scalar_validity_disjoint (int64Converter int64Type int64Zero)
           (int32Converter int32Type int32Zero) Kint64 Kint32);
    [reflexivity | reflexivity | discriminate | reflexivity].
Defined.

(** A bool field with the native type [example.MyInt], and a native [true]
    handed to the string converter of a string field. *)
Lemma fatal_on_mismatch_witness :
  NewConverter unit (fun _ _ => Ok tt) (fun _ _ => Ok tt) example_MyInt
    (example_field protoreflect.BoolKind protoreflect.Optional boolZero)
  = Panic (StringPanic
      "invalid Go type example.MyInt for field example.M.f")
  /\
  PBValueOf example_ProtoMessage (stringConverter stringType stringZero)
    (reflect.ValueOf boolType (reflect.PBool true))
  = Panic (StringPanic "invalid type: got bool, want string").
Proof.
  split.
  - apply (proj1 (fatal_on_mismatch example_ProtoMessage unit
                    (fun _ _ => Ok tt) (fun _ _ => Ok tt) example_MyInt
                    (example_field protoreflect.BoolKind
                       protoreflect.Optional boolZero))
             eq_refl eq_refl);
      reflexivity.
  - apply (proj2 (fatal_on_mismatch example_ProtoMessage unit
                    (fun _ _ => Ok tt) (fun _ _ => Ok tt) stringType
                    (example_field protoreflect.StringKind
                       protoreflect.Optional stringZero))
             stringType stringZero
             (reflect.ValueOf boolType (reflect.PBool true)) boolType);
      reflexivity.
Defined.

(** The empty string of a bytes field kept as a Go string, and the empty
    abstract text of a string field kept as a byte slice. *)
Lemma empty_normalization_witness :
  PBValueOf example_ProtoMessage (bytesConverter stringType bytesZero)
    (reflect.ValueOf stringType (reflect.PString ""))
  = Ok (ValueOfBytes None)
  /\
  GoValueOf (stringConverter bytesType stringZero) ∅ (ValueOfString "")
  = Ok (reflect.ValueOf bytesType (reflect.PSlice None)).
Proof.
  split.
  - apply (proj1 (empty_normalization example_ProtoMessage stringType
                    bytesZero ∅ None)).
    reflexivity.
  - apply (proj2 (empty_normalization example_ProtoMessage bytesType
                    stringZero ∅ None)).
    reflexivity.
Defined.

(** A singular int32 field with declared default 5, and a repeated int32
    field. *)
Lemma default_correctness_witness :
  (New example_ProtoMessage (int32Converter int32Type (ValueOfInt32 5)) ∅
   = Ok (ValueOfInt32 5, ∅) /\
   Zero example_ProtoMessage (int32Converter int32Type (ValueOfInt32 5))
   = Ok (ValueOfInt32 5))
  /\
  (exists z,
     repeated_default
       (example_field protoreflect.Int32Kind protoreflect.Repeated
          protoreflect.NoValue)
       (int32Converter int32Type (ValueOfInt32 0))
     = Some z /\
     New example_ProtoMessage (int32Converter int32Type (ValueOfInt32 0)) ∅
     = Ok (z, ∅) /\
     Zero example_ProtoMessage (int32Converter int32Type (ValueOfInt32 0))
     = Ok z).
Proof.
  split.
  - apply (proj1 (default_correctness example_ProtoMessage int32Type
                    (example_field protoreflect.Int32Kind
                       protoreflect.Optional (ValueOfInt32 5))
                    (int32Converter int32Type (ValueOfInt32 5)) ∅
                    eq_refl eq_refl)).
    discriminate.
  - apply (proj2 (default_correctness example_ProtoMessage int32Type
                    (example_field protoreflect.Int32Kind
                       protoreflect.Repeated protoreflect.NoValue)
                    (int32Converter int32Type (ValueOfInt32 0)) ∅
                    eq_refl eq_refl)).
    reflexivity.
Defined.

(** A message field with the native type [*example.M]. *)
Lemma message_kind_unchecked_witness :
  newSingularConverter (PtrTo example_M)
    (example_field protoreflect.MessageKind protoreflect.Optional
       protoreflect.NoValue)
  = Ok (messageConverter (PtrTo example_M)).
Proof.
  apply (message_kind_unchecked unit (fun _ _ => Ok tt) (fun _ _ => Ok tt)
           (PtrTo example_M)
           (example_field protoreflect.MessageKind protoreflect.Optional
              protoreflect.NoValue)).
  left. reflexivity.
Defined.

(** The native type [int32] is none of the representations of a message,
    and yet the factory constructs a converter for a message field with
    it, without panicking. *)
Lemma message_kind_accepts_int32 :
  expected_message_type example_ProtoMessage int32Type = false /\
  panics (newSingularConverter int32Type
            (example_field protoreflect.MessageKind protoreflect.Optional
               protoreflect.NoValue)) = false /\
  newSingularConverter int32Type
    (example_field protoreflect.MessageKind protoreflect.Optional
       protoreflect.NoValue)
  = Ok (messageConverter int32Type).
Proof. repeat split. Qed.

(** Two calls of [New] on the message converter for [*example.M]. *)
Lemma message_New_independent_witness :
  exists m1 h1 m2 h2 l1 l2 z,
    New example_ProtoMessage (messageConverter (PtrTo example_M)) ∅
    = Ok (m1, h1) /\
    New example_ProtoMessage (messageConverter (PtrTo example_M)) h1
    = Ok (m2, h2) /\
    message_loc m1 = Some l1 /\ (∅ : reflect.heap) !! l1 = None /\
    message_loc m2 = Some l2 /\ h1 !! l2 = None /\
    l1 <> l2 /\
    is_Some (observe m1 h2) /\ is_Some (observe m2 h2) /\
    (forall x, exists h3,
       mutate m1 x h2 = Some h3 /\
       observe m1 h3 = Some x /\
       observe m2 h3 = observe m2 h2) /\
    Zero example_ProtoMessage (messageConverter (PtrTo example_M))
    = PBValueOf example_ProtoMessage (messageConverter (PtrTo example_M))
        (reflect.Zero (PtrTo example_M)) /\
    Zero example_ProtoMessage (messageConverter (PtrTo example_M)) = Ok z /\
    message_loc z = None /\
    (forall x h', mutate z x h' = None).
Proof.
  apply (message_New_independent example_ProtoMessage (PtrTo example_M) ∅).
  reflexivity.
Defined.

(** The factory constructs a message converter for the named pointer type
    [example.P] (declared as [type P *M]); its [New] allocates an
    [example.M], whose pointer has the type [*example.M] and not
    [example.P], and panics: it returns no instance. *)
Lemma message_New_named_pointer_panics :
  newSingularConverter example_P
    (example_field protoreflect.MessageKind protoreflect.Optional
       protoreflect.NoValue)
  = Ok (messageConverter example_P) /\
  New example_ProtoMessage (messageConverter example_P) ∅
  = Panic (StringPanic "invalid type: got *example.M, want example.P").
Proof. split; reflexivity. Qed.

(** * The further properties at concrete inputs *)

(** What the bytes converter kept as a Go string makes of the string "ab"
    is valid for it. *)
Lemma PBValueOf_result_valid_witness :
  IsValidPB (bytesConverter stringType bytesZero)
    (ValueOfBytes (Some (list_byte_of_string "ab")))
  = Ok true.
Proof.
  apply (PBValueOf_result_valid example_ProtoMessage
           (bytesConverter stringType bytesZero)
           (reflect.ValueOf stringType (reflect.PString "ab"))).
  reflexivity.
Defined.

(** What the string converter kept as a byte slice makes of the empty
    abstract text is a value of the byte-slice type. *)
Lemma GoValueOf_result_valid_witness :
  IsValidGo (stringConverter bytesType stringZero)
    (reflect.ValueOf bytesType (reflect.PSlice None))
  = Ok true.
Proof.
  apply (GoValueOf_result_valid (stringConverter bytesType stringZero) ∅
           (ValueOfString "")).
  reflexivity.
Defined.

(** The int32 converter for the named type [example.MyInt] converts a
    value of that type and panics on a value of the type [int32]. *)
Lemma PBValueOf_iff_IsValidGo_witness :
  (exists pv,
     PBValueOf example_ProtoMessage (int32Converter example_MyInt int32Zero)
       (reflect.ValueOf example_MyInt (reflect.PInt 7))
     = Ok pv)
  /\
  PBValueOf example_ProtoMessage (int32Converter example_MyInt int32Zero)
    (reflect.ValueOf int32Type (reflect.PInt 7))
  = Panic (StringPanic "invalid type: got int32, want example.MyInt").
Proof.
  split.
  - apply (proj1 (PBValueOf_iff_IsValidGo example_ProtoMessage example_MyInt
                    (example_field protoreflect.Int32Kind
                       protoreflect.Optional int32Zero)
                    (int32Converter example_MyInt int32Zero)
                    (reflect.ValueOf example_MyInt (reflect.PInt 7))
                    eq_refl)).
    reflexivity.
  - apply (proj2 (PBValueOf_iff_IsValidGo example_ProtoMessage example_MyInt
                    (example_field protoreflect.Int32Kind
                       protoreflect.Optional int32Zero)
                    (int32Converter example_MyInt int32Zero)
                    (reflect.ValueOf int32Type (reflect.PInt 7))
                    eq_refl)).
    reflexivity.
Defined.

(** The empty, non-nil byte slice of a string field kept as a byte slice
    comes back as the nil slice. *)
Lemma string_round_trip_witness :
  exists pv rv,
    PBValueOf example_ProtoMessage (stringConverter bytesType stringZero)
      (reflect.ValueOf bytesType (reflect.PSlice (Some [])))
    = Ok pv /\
    GoValueOf (stringConverter bytesType stringZero) ∅ pv = Ok rv /\
    same_representation rv
      (reflect.ValueOf bytesType (reflect.PSlice None)).
Proof.
  apply (string_round_trip example_ProtoMessage bytesType
           (example_field protoreflect.StringKind protoreflect.Optional
              stringZero)
           bytesType stringZero ∅
           (reflect.ValueOf bytesType (reflect.PSlice (Some []))));
    reflexivity.
Defined.

(** The empty, non-nil byte slice of a bytes field comes back as it is. *)
Lemma bytes_round_trip_witness :
  exists pv rv,
    PBValueOf example_ProtoMessage (bytesConverter bytesType bytesZero)
      (reflect.ValueOf bytesType (reflect.PSlice (Some [])))
    = Ok pv /\
    GoValueOf (bytesConverter bytesType bytesZero) ∅ pv = Ok rv /\
    same_representation rv
      (reflect.ValueOf bytesType (reflect.PSlice (Some []))).
Proof.
  apply (bytes_round_trip example_ProtoMessage bytesType
           (example_field protoreflect.BytesKind protoreflect.Optional
              bytesZero)
           bytesType bytesZero ∅
           (reflect.ValueOf bytesType (reflect.PSlice (Some []))));
    reflexivity.
Defined.

(** The enum number -3 of an enum field kept as [example.MyInt]. *)
Lemma enum_round_trip_witness :
  exists pv rv,
    PBValueOf example_ProtoMessage
      (enumConverter example_MyInt (ValueOfEnum 1))
      (reflect.ValueOf example_MyInt (reflect.PInt (-3)))
    = Ok pv /\
    GoValueOf (enumConverter example_MyInt (ValueOfEnum 1)) ∅ pv = Ok rv /\
    same_representation rv
      (reflect.ValueOf example_MyInt (reflect.PInt (-3))).
Proof.
  apply (enum_round_trip example_ProtoMessage example_MyInt
           (example_field protoreflect.EnumKind protoreflect.Optional
              (ValueOfEnum 1))
           example_MyInt (ValueOfEnum 1) ∅
           (reflect.ValueOf example_MyInt (reflect.PInt (-3))));
    reflexivity.
Defined.

(** The abstract uint32 value 4294967295 of a uint32 field. *)
Lemma abstract_round_trip_witness :
  exists rv,
    GoValueOf (uint32Converter uint32Type uint32Zero) ∅
      (ValueOfUint32 4294967295)
    = Ok rv /\
    PBValueOf example_ProtoMessage (uint32Converter uint32Type uint32Zero) rv
    = Ok (ValueOfUint32 4294967295).
Proof.
  apply (abstract_round_trip example_ProtoMessage uint32Type
           (example_field protoreflect.Uint32Kind protoreflect.Optional
              uint32Zero));
    reflexivity.
Defined.

(** The empty, non-nil abstract byte sequence of a bytes field kept as a
    Go string comes back as the nil sequence. *)
Lemma bytes_abstract_round_trip_witness :
  exists rv,
    GoValueOf (bytesConverter stringType bytesZero) ∅ (ValueOfBytes (Some []))
    = Ok rv /\
    PBValueOf example_ProtoMessage (bytesConverter stringType bytesZero) rv
    = Ok (ValueOfBytes None).
Proof.
  apply (bytes_abstract_round_trip example_ProtoMessage stringType
           (example_field protoreflect.BytesKind protoreflect.Optional
              bytesZero)
           stringType bytesZero ∅ (Some [])).
  reflexivity.
Defined.

(** The abstract int64 value 2^32 + 5 handed to an int32 converter. *)
Lemma GoValueOf_keeps_low_bits_witness :
  IsValidPB (int32Converter int32Type int32Zero) (ValueOfInt64 4294967301)
  = Ok false /\
  GoValueOf (int32Converter int32Type int32Zero) ∅ (ValueOfInt64 4294967301)
  = Ok (reflect.ValueOf int32Type (reflect.PInt 5)).
Proof.
  apply (proj1 (GoValueOf_keeps_low_bits int32Type
                  (example_field protoreflect.Int32Kind
                     protoreflect.Optional int32Zero)
                  int32Type int32Zero ∅ 4294967301)).
  reflexivity.
Defined.

(** A pointer of the type [*example.M] to the variable at location 1. *)
Lemma message_round_trip_pointer_witness :
  exists pv rv,
    PBValueOf example_ProtoMessage (messageConverter (PtrTo example_M))
      (reflect.ValueOf (PtrTo example_M) (reflect.PPtr (Some 1%positive)))
    = Ok pv /\
    GoValueOf (messageConverter (PtrTo example_M)) ∅ pv = Ok rv /\
    same_representation rv
      (reflect.ValueOf (PtrTo example_M) (reflect.PPtr (Some 1%positive))).
Proof.
  apply (message_round_trip_pointer example_ProtoMessage (PtrTo example_M) ∅
           (reflect.ValueOf (PtrTo example_M)
              (reflect.PPtr (Some 1%positive))));
    reflexivity.
Defined.

(** A value of the struct type [example.M] that is not addressable: what
    comes back is the zero value of the type. *)
Lemma message_round_trip_value_witness :
  exists pv,
    PBValueOf example_ProtoMessage (messageConverter example_M)
      (Some {| reflect.typ := example_M;
               reflect.data :=
                 reflect.PStruct [reflect.PInt 7; reflect.PString "a"];
               reflect.addr := None |})
    = Ok pv /\
    GoValueOf (messageConverter example_M) ∅ pv
    = Ok (reflect.Zero example_M).
Proof.
  apply (message_round_trip_value example_ProtoMessage example_M ∅
           (reflect.PStruct [reflect.PInt 7; reflect.PString "a"]) None).
  reflexivity.
Defined.

(** The handle of a nil [*example.M] handed to the message converter of
    [*example.M]. *)
Lemma message_GoValueOf_iff_IsValidPB_witness :
  exists rv,
    GoValueOf (messageConverter (PtrTo example_M)) ∅
      (ValueOfMessage (ProtoReflect (reflect.Zero (PtrTo example_M))))
    = Ok rv.
Proof.
  apply (proj2 (message_GoValueOf_iff_IsValidPB (PtrTo example_M) ∅
                  (ValueOfMessage
                     (ProtoReflect (reflect.Zero (PtrTo example_M))))));
    reflexivity.
Defined.

(** [New] of the message converter of [*example.M] in the empty store. *)
Lemma message_New_GoValueOf_witness :
  exists m h' l,
    New example_ProtoMessage (messageConverter (PtrTo example_M)) ∅
    = Ok (m, h') /\
    (∅ : reflect.heap) !! l = None /\
    (isNonPointer (PtrTo example_M) = true ->
     GoValueOf (messageConverter (PtrTo example_M)) h' m
     = Ok (Some {| reflect.typ := PtrTo example_M;
                   reflect.data := reflect.zero (PtrTo example_M);
                   reflect.addr := Some l |})) /\
    (forall e, PtrTo example_M = PtrTo e ->
       GoValueOf (messageConverter (PtrTo example_M)) h' m
       = Ok (reflect.ValueOf (PtrTo example_M) (reflect.PPtr (Some l))) /\
       h' !! l = Some (reflect.zero e)).
Proof.
  apply (message_New_GoValueOf example_ProtoMessage (PtrTo example_M) ∅).
  reflexivity.
Defined.

(** A repeated string field kept as a Go string. *)
Lemma defaults_valid_witness :
  (forall z,
     Zero example_ProtoMessage (stringConverter stringType stringZero) = Ok z ->
     IsValidPB (stringConverter stringType stringZero) z = Ok true) /\
  (forall h z h',
     New example_ProtoMessage (stringConverter stringType stringZero) h
     = Ok (z, h') ->
     IsValidPB (stringConverter stringType stringZero) z = Ok true).
Proof.
  apply (defaults_valid example_ProtoMessage stringType
           (example_field protoreflect.StringKind protoreflect.Repeated
              protoreflect.NoValue)
           (stringConverter stringType stringZero)).
  - reflexivity.
  - left. reflexivity.
Defined.

(** [New] of the message converter of [example.M] in a store that holds
    one variable. *)
Lemma New_preserves_store_witness :
  (<[fresh (dom ({[1%positive := reflect.PInt 7]} : reflect.heap))
     := reflect.zero example_M]>
     ({[1%positive := reflect.PInt 7]} : reflect.heap))
  !! 1%positive
  = Some (reflect.PInt 7).
Proof.
  apply (New_preserves_store example_ProtoMessage
           (messageConverter example_M)
           {[1%positive := reflect.PInt 7]}
           (ValueOfMessage
              (ProtoReflect
                 (reflect.ValueOf (PtrTo example_M)
                    (reflect.PPtr
                       (Some (fresh (dom ({[1%positive := reflect.PInt 7]}
                                          : reflect.heap)))))))));
    reflexivity.
Defined.
